(** * Turn client of the chat adventure (src/web/static/js/game.js)

    A shallow embedding of the browser-side turn client: the session
    record, the page it drives, the two network operations (each split at
    its [await] into the part that runs on the UI event and the part that
    runs when the response arrives), the resource display and the staggered
    rendering of encounter messages.

    The payloads have the shapes of the HTTP API: a field that may be
    missing is an [option], numbers are integers. The page has every element
    the script looks up with [getElementById] (an icon group may be missing:
    [updateIconGroup] asks), so no handler throws after its response has
    been parsed. The popup of the resource details is not part of the
    model. *)

From Stdlib Require Import ZArith NArith Lia Bool String Ascii DecimalString
  DecimalPos.
From stdpp Require Import base list.

Set Warnings "-register-all".

(** ** JavaScript strings

    A JavaScript string is a sequence of UTF-16 code units. The literals of
    the source that are Korean text are given by their code units, with the
    text in a comment. *)

Module JsString.

Local Open Scope N_scope.

Definition jsstring := list N.

(** A literal of the source made of ASCII characters only. *)
Definition lit (s : string) : jsstring :=
  map N_of_ascii (list_ascii_of_string s).

(** The characters [String.prototype.trim] removes: WhiteSpace and
    LineTerminator of ECMAScript. *)
Definition isWhiteSpace (c : N) : bool :=
  ((9 <=? c) && (c <=? 13)) || (c =? 32) || (c =? 160) || (c =? 5760)
  || ((8192 <=? c) && (c <=? 8202)) || (c =? 8232) || (c =? 8233)
  || (c =? 8239) || (c =? 8287) || (c =? 12288) || (c =? 65279).

Fixpoint trimStart (s : jsstring) : jsstring :=
  match s with
  | [] => []
  | c :: s' => if isWhiteSpace c then trimStart s' else s
  end.

Definition trimEnd (s : jsstring) : jsstring := rev (trimStart (rev s)).

Definition trim (s : jsstring) : jsstring := trimEnd (trimStart s).

(** [a === b] on two strings. *)
Fixpoint strictEq (a b : jsstring) : bool :=
  match a, b with
  | [], [] => true
  | x :: a', y :: b' => (x =? y) && strictEq a' b'
  | _, _ => false
  end.

(** Truthiness of a string value: every string but the empty one. *)
Definition nonEmpty (s : jsstring) : bool :=
  match s with [] => false | _ :: _ => true end.

(** [Array.prototype.join]. *)
Fixpoint join (sep : jsstring) (l : list jsstring) : jsstring :=
  match l with
  | [] => []
  | [x] => x
  | x :: l' => x ++ sep ++ join sep l'
  end.

Fixpoint digits (d : Decimal.uint) : jsstring :=
  match d with
  | Decimal.Nil => []
  | Decimal.D0 d => 48 :: digits d
  | Decimal.D1 d => 49 :: digits d
  | Decimal.D2 d => 50 :: digits d
  | Decimal.D3 d => 51 :: digits d
  | Decimal.D4 d => 52 :: digits d
  | Decimal.D5 d => 53 :: digits d
  | Decimal.D6 d => 54 :: digits d
  | Decimal.D7 d => 55 :: digits d
  | Decimal.D8 d => 56 :: digits d
  | Decimal.D9 d => 57 :: digits d
  end.

(** The string a template literal substitutes for an integer number. *)
Definition numberToString (z : Z) : jsstring :=
  match Z.to_int z with
  | Decimal.Pos d => digits d
  | Decimal.Neg d => 45 :: digits d
  end.

End JsString.
Import JsString.

(** ** Payloads of the HTTP API *)

(** A JSON value the client stores without looking inside (an encounter). *)
Inductive json : Type :=
  | JNull
  | JBool (b : bool)
  | JNum (z : Z)
  | JStr (s : jsstring)
  | JArr (l : list json)
  | JObj (l : list (jsstring * json)).

(** A field of a payload is [None] when it is undefined. *)
Definition truthyJson (v : option json) : bool :=
  match v with
  | None | Some JNull => false
  | Some (JBool b) => b
  | Some (JNum z) => negb (z =? 0)%Z
  | Some (JStr s) => nonEmpty s
  | Some (JArr _) | Some (JObj _) => true
  end.

Definition truthyStr (v : option jsstring) : bool :=
  match v with
  | None => false
  | Some s => nonEmpty s
  end.

(** [v || d] on an optional string. *)
Definition orStr (v : option jsstring) (d : jsstring) : jsstring :=
  match v with
  | Some (c :: s) => c :: s
  | _ => d
  end.

Record Resources := mkResources {
  health : option Z;
  mental : option Z;
  money : option Z
}.

(** [gadgets] lists the properties of the object in the order [Object.keys]
    enumerates them. *)
Record GameState := mkGameState {
  resources : option Resources;
  gadgets : option (list (jsstring * Z))
}.

Record Message := mkMessage {
  type : option jsstring;
  content : option jsstring;
  url : option jsstring;
  alt : option jsstring
}.

Record GadgetChange := mkGadgetChange {
  id : jsstring;
  action : jsstring;
  amount : Z
}.

Record ChoiceResult := mkChoiceResult {
  result_resources : option Resources;
  result_gadgets : option (list GadgetChange)
}.

Record ChoiceMapped := mkChoiceMapped {
  story : option jsstring;
  explanation : option jsstring
}.

Record StartData := mkStartData {
  start_error : option jsstring;
  session_id : option jsstring;
  encounter : option json;
  start_state : option GameState;
  start_messages : option (list Message)
}.

Record ChoiceData := mkChoiceData {
  error : option jsstring;
  choice_mapped : option ChoiceMapped;
  result : option ChoiceResult;
  choice_state : option GameState;
  game_over : option bool;
  game_over_reason : option jsstring;
  next_encounter : option json;
  messages : option (list Message)
}.

(** What awaiting [fetch] and then [response.json()] gives: either of the two
    promises rejects, or the body parses to a payload. *)
Inductive outcome (A : Type) : Type :=
  | NetworkError
  | ParseError
  | Body (data : A).
Arguments NetworkError {A}.
Arguments ParseError {A}.
Arguments Body {A} data.

(** ** The page and the session record *)

Inductive display : Type := DisplayUnset | DisplayNone | DisplayBlock.

(** The second class of a [message] element. *)
Inductive messageType : Type := player | system | story_ | result_.

(** An element of the transcript. The container of an encounter is named by
    its index in the store [wraps] of the world: the timers that fill it
    keep a reference to it whether or not it is still in the transcript. *)
Inductive ChatNode : Type :=
  | MessageDiv (type : messageType) (textContent : jsstring)
  | EncounterGroup (wrap : nat).

Inductive WrapChild : Type :=
  | EncounterImage (src alt : jsstring)
  | EncounterBubble (textContent : jsstring).

Record Session := mkSession {
  sessionId : option jsstring;
  currentEncounter : option json;
  state : option GameState
}.

(** The resource display. An icon group is [None] when the page has no such
    element, and otherwise gives, for each of its spans, whether the span
    carries the class [empty]. *)
Record Hud := mkHud {
  health_icons : option (list bool);
  mental_icons : option (list bool);
  money_icons : option (list bool);
  health_value : jsstring;
  mental_value : jsstring;
  money_value : jsstring;
  gadgets_list : jsstring
}.

Record Page := mkPage {
  welcomeScreen : display;
  gameScreen : display;
  gameOverScreen : display;
  startBtn_disabled : bool;
  chatInput_value : jsstring;
  chatInput_disabled : bool;
  sendBtn_disabled : bool;
  chatInput_focus : nat;
  game_over_reason_text : jsstring;
  chatMessages : list ChatNode;
  chatMessages_scroll : nat
}.

(** A pending [setTimeout] of [addEncounterBubbles]: the time it is due, the
    container and the item its callback closes over. *)
Record Timer := mkTimer {
  due : nat;
  timer_wrap : nat;
  timer_item : Message
}.

Record World := mkWorld {
  gameState : Session;
  page : Page;
  hud : Hud;
  wraps : list (list WrapChild);
  timers : list Timer;
  clock : nat;
  alerts : list jsstring;
  console : list jsstring
}.

Inductive Request : Type :=
  | StartRequest
  | ChoiceRequest (url input : jsstring).

Definition upd_gameState (f : Session -> Session) (w : World) : World :=
  mkWorld (f (gameState w)) (page w) (hud w) (wraps w) (timers w) (clock w)
    (alerts w) (console w).
Definition upd_page (f : Page -> Page) (w : World) : World :=
  mkWorld (gameState w) (f (page w)) (hud w) (wraps w) (timers w) (clock w)
    (alerts w) (console w).
Definition upd_hud (f : Hud -> Hud) (w : World) : World :=
  mkWorld (gameState w) (page w) (f (hud w)) (wraps w) (timers w) (clock w)
    (alerts w) (console w).
Definition upd_wraps (f : list (list WrapChild) -> list (list WrapChild))
    (w : World) : World :=
  mkWorld (gameState w) (page w) (hud w) (f (wraps w)) (timers w) (clock w)
    (alerts w) (console w).
Definition upd_timers (f : list Timer -> list Timer) (w : World) : World :=
  mkWorld (gameState w) (page w) (hud w) (wraps w) (f (timers w)) (clock w)
    (alerts w) (console w).
Definition upd_clock (f : nat -> nat) (w : World) : World :=
  mkWorld (gameState w) (page w) (hud w) (wraps w) (timers w) (f (clock w))
    (alerts w) (console w).
Definition upd_alerts (f : list jsstring -> list jsstring) (w : World)
    : World :=
  mkWorld (gameState w) (page w) (hud w) (wraps w) (timers w) (clock w)
    (f (alerts w)) (console w).
Definition upd_console (f : list jsstring -> list jsstring) (w : World)
    : World :=
  mkWorld (gameState w) (page w) (hud w) (wraps w) (timers w) (clock w)
    (alerts w) (f (console w)).

Definition set_currentEncounter (v : option json) (s : Session) : Session :=
  mkSession (sessionId s) v (state s).

Definition set_welcomeScreen (d : display) (p : Page) : Page :=
  mkPage d (gameScreen p) (gameOverScreen p) (startBtn_disabled p)
    (chatInput_value p) (chatInput_disabled p) (sendBtn_disabled p)
    (chatInput_focus p) (game_over_reason_text p) (chatMessages p)
    (chatMessages_scroll p).
Definition set_gameScreen (d : display) (p : Page) : Page :=
  mkPage (welcomeScreen p) d (gameOverScreen p) (startBtn_disabled p)
    (chatInput_value p) (chatInput_disabled p) (sendBtn_disabled p)
    (chatInput_focus p) (game_over_reason_text p) (chatMessages p)
    (chatMessages_scroll p).
Definition set_gameOverScreen (d : display) (p : Page) : Page :=
  mkPage (welcomeScreen p) (gameScreen p) d
    (startBtn_disabled p) (chatInput_value p) (chatInput_disabled p)
    (sendBtn_disabled p) (chatInput_focus p) (game_over_reason_text p)
    (chatMessages p) (chatMessages_scroll p).
Definition set_startBtn_disabled (b : bool) (p : Page) : Page :=
  mkPage (welcomeScreen p) (gameScreen p)
    (gameOverScreen p) b (chatInput_value p) (chatInput_disabled p)
    (sendBtn_disabled p) (chatInput_focus p) (game_over_reason_text p)
    (chatMessages p) (chatMessages_scroll p).
Definition set_chatInput_value (v : jsstring) (p : Page) : Page :=
  mkPage (welcomeScreen p) (gameScreen p)
    (gameOverScreen p) (startBtn_disabled p) v
    (chatInput_disabled p) (sendBtn_disabled p) (chatInput_focus p)
    (game_over_reason_text p) (chatMessages p) (chatMessages_scroll p).
Definition set_chatInput_disabled (b : bool) (p : Page) : Page :=
  mkPage (welcomeScreen p) (gameScreen p)
    (gameOverScreen p) (startBtn_disabled p)
    (chatInput_value p) b (sendBtn_disabled p) (chatInput_focus p)
    (game_over_reason_text p) (chatMessages p) (chatMessages_scroll p).
Definition set_sendBtn_disabled (b : bool) (p : Page) : Page :=
  mkPage (welcomeScreen p) (gameScreen p)
    (gameOverScreen p) (startBtn_disabled p)
    (chatInput_value p) (chatInput_disabled p) b
    (chatInput_focus p) (game_over_reason_text p) (chatMessages p)
    (chatMessages_scroll p).
Definition focus_chatInput (p : Page) : Page :=
  mkPage (welcomeScreen p) (gameScreen p)
    (gameOverScreen p) (startBtn_disabled p)
    (chatInput_value p) (chatInput_disabled p)
    (sendBtn_disabled p) (S (chatInput_focus p))
    (game_over_reason_text p) (chatMessages p) (chatMessages_scroll p).
Definition set_game_over_reason_text (v : jsstring) (p : Page) : Page :=
  mkPage (welcomeScreen p) (gameScreen p)
    (gameOverScreen p) (startBtn_disabled p)
    (chatInput_value p) (chatInput_disabled p)
    (sendBtn_disabled p) (chatInput_focus p) v
    (chatMessages p) (chatMessages_scroll p).
Definition upd_chatMessages (f : list ChatNode -> list ChatNode) (p : Page)
    : Page :=
  mkPage (welcomeScreen p) (gameScreen p)
    (gameOverScreen p) (startBtn_disabled p)
    (chatInput_value p) (chatInput_disabled p)
    (sendBtn_disabled p) (chatInput_focus p)
    (game_over_reason_text p) (f (chatMessages p))
    (chatMessages_scroll p).
(** [chatMessages.scrollTop = chatMessages.scrollHeight] *)
Definition scrollToBottom (p : Page) : Page :=
  mkPage (welcomeScreen p) (gameScreen p)
    (gameOverScreen p) (startBtn_disabled p)
    (chatInput_value p) (chatInput_disabled p)
    (sendBtn_disabled p) (chatInput_focus p)
    (game_over_reason_text p) (chatMessages p)
    (S (chatMessages_scroll p)).

(** ** Literals of the source *)

Module Lit.
Local Open Scope N_scope.

(* 게임을 먼저 시작해주세요. *)
Definition startFirst : jsstring :=
  [44172; 51076; 51012; 32; 47676; 51200; 32; 49884; 51089; 54644; 51452;
   49464; 50836; 46].
(* 게임을 시작할 수 없습니다. *)
Definition cannotStart : jsstring :=
  [44172; 51076; 51012; 32; 49884; 51089; 54624; 32; 49688; 32; 50630;
   49845; 45768; 45796; 46].
(* 게임 시작 오류: *)
Definition startFailedLog : jsstring :=
  [44172; 51076; 32; 49884; 51089; 32; 50724; 47448; 58].
(* 선택 처리 오류: *)
Definition choiceFailedLog : jsstring :=
  [49440; 53469; 32; 52376; 47532; 32; 50724; 47448; 58].
(* 오류가 발생했습니다. 다시 시도해주세요. *)
Definition tryAgain : jsstring :=
  [50724; 47448; 44032; 32; 48156; 49373; 54664; 49845; 45768; 45796; 46;
   32; 45796; 49884; 32; 49884; 46020; 54644; 51452; 49464; 50836; 46].
(* 게임이 종료되었습니다. *)
Definition gameEnded : jsstring :=
  [44172; 51076; 51060; 32; 51333; 47308; 46104; 50632; 49845; 45768;
   45796; 46].
(* 체력:  *)
Definition healthLabel : jsstring := [52404; 47141; 58; 32].
(* 멘탈:  *)
Definition mentalLabel : jsstring := [47704; 53448; 58; 32].
(* 돈:  *)
Definition moneyLabel : jsstring := [46024; 58; 32].
(* 자원 변화:  *)
Definition resourceChange : jsstring :=
  [51088; 50896; 32; 48320; 54868; 58; 32].
(* 가젯 변화:  *)
Definition gadgetChange : jsstring :=
  [44032; 51247; 32; 48320; 54868; 58; 32].
(*  획득 (+ *)
Definition acquired : jsstring := [32; 54925; 46301; 32; 40; 43].
(*  손실 (- *)
Definition lost : jsstring := [32; 49552; 49892; 32; 40; 45].
(* 없음 *)
Definition none : jsstring := [50630; 51020].
Definition newline : jsstring := [10].

End Lit.

(** ** Rendering *)

(** [addMessage(text, type)] *)
Definition addMessage (text : jsstring) (type : messageType) (p : Page)
    : Page :=
  let p := upd_chatMessages (fun c => c ++ [MessageDiv type text]) p in
  scrollToBottom p.

Inductive iconGroup : Type :=
  | health_icons_id
  | mental_icons_id
  | money_icons_id.

Definition getIconGroup (g : iconGroup) (h : Hud) : option (list bool) :=
  match g with
  | health_icons_id => health_icons h
  | mental_icons_id => mental_icons h
  | money_icons_id => money_icons h
  end.

Definition setIconGroup (g : iconGroup) (v : option (list bool)) (h : Hud)
    : Hud :=
  match g with
  | health_icons_id =>
      mkHud v (mental_icons h) (money_icons h) (health_value h)
        (mental_value h) (money_value h) (gadgets_list h)
  | mental_icons_id =>
      mkHud (health_icons h) v (money_icons h) (health_value h)
        (mental_value h) (money_value h) (gadgets_list h)
  | money_icons_id =>
      mkHud (health_icons h) (mental_icons h) v (health_value h)
        (mental_value h) (money_value h) (gadgets_list h)
  end.

(** [updateIconGroup(groupId, value, max)]: span [i] of the group carries
    [empty] exactly when [i >= value]; [max] is not used by the source. *)
Definition updateIconGroup (groupId : iconGroup) (value max : Z) (h : Hud)
    : Hud :=
  match getIconGroup groupId h with
  | None => h
  | Some spans =>
      setIconGroup groupId
        (Some (imap (fun i _ => (value <=? Z.of_nat i)%Z) spans)) h
  end.

(** [v ?? d] on an optional number. *)
Definition nullish (v : option Z) (d : Z) : Z :=
  match v with Some z => z | None => d end.

Definition emptyResources : Resources := mkResources None None None.

Definition valueLabel (n : Z) : jsstring := numberToString n ++ lit "/3".

(** [updateGameState(state)]: it touches the resource display only. *)
Definition updateGameState (st : option GameState) (h : Hud) : Hud :=
  match st with
  | None => h
  | Some state =>
      let resources :=
        match resources state with Some r => r | None => emptyResources end in
      let health := Z.min 3 (Z.max 0 (nullish (health resources) 3)) in
      let mental := Z.min 3 (Z.max 0 (nullish (mental resources) 3)) in
      let money := Z.min 3 (Z.max 0 (nullish (money resources) 0)) in
      let h := updateIconGroup health_icons_id health 3 h in
      let h := updateIconGroup mental_icons_id mental 3 h in
      let h := updateIconGroup money_icons_id money 3 h in
      let gadgets :=
        match gadgets state with Some g => g | None => [] end in
      let gadgetsList :=
        match join (lit ", ") (map fst gadgets) with
        | [] => Lit.none
        | c :: s => c :: s
        end in
      mkHud (health_icons h) (mental_icons h) (money_icons h)
        (valueLabel health) (valueLabel mental) (valueLabel money) gadgetsList
  end.

(** The callback [addEncounterBubbles] hands to [setTimeout] for item [m]. *)
Definition encounterTimeout (wrap : nat) (m : Message) (w : World) : World :=
  let isImage :=
    match type m with Some t => strictEq t (lit "image") | None => false end in
  if isImage then
    let url := orStr (url m) [] in
    if negb (nonEmpty url) then w
    else
      let img := EncounterImage url (orStr (alt m) []) in
      let w := upd_wraps (alter (fun c => c ++ [img]) wrap) w in
      upd_page scrollToBottom w
  else
    let text := trim (orStr (content m) []) in
    if negb (nonEmpty text) then w
    else
      let bubble := EncounterBubble text in
      let w := upd_wraps (alter (fun c => c ++ [bubble]) wrap) w in
      upd_page scrollToBottom w.

(** [addEncounterBubbles(items)]. The new container gets the next free index
    of the store; item [index] is handed to [setTimeout] with the delay
    [index * 500], so its timer is due at that offset from the current
    time. *)
Definition addEncounterBubbles (items : list Message) (w : World) : World :=
  match items with
  | [] => w
  | _ :: _ =>
      let wrap := length (wraps w) in
      let w := upd_wraps (fun ws => ws ++ [[]]) w in
      let w :=
        upd_page (upd_chatMessages (fun c => c ++ [EncounterGroup wrap])) w in
      upd_timers (fun ts =>
        ts ++ imap (fun index m => mkTimer (clock w + index * 500) wrap m)
                items) w
  end.

(** [data.messages || []] *)
Definition messagesOrEmpty (v : option (list Message)) : list Message :=
  match v with Some l => l | None => [] end.

(** ** The handlers

    An [async] handler is split at its [await]: the first part runs on the
    UI event and says which request it sends, if any; the second part runs
    when the response arrives, on the world as it is by then, and reads the
    global [gameState] again, as the source does. *)

(** The click handler of the start button, up to [fetch]. *)
Definition startBtn_click (w : World) : World * option Request :=
  if startBtn_disabled (page w) then (w, None)
  else
    let w := upd_page (set_startBtn_disabled true) w in
    let w := upd_page (upd_chatMessages (fun _ => [])) w in
    (w, Some StartRequest).

(** The rest of the click handler of the start button. *)
Definition startBtn_resume (o : outcome StartData) (w : World) : World :=
  match o with
  | Body data =>
      match start_error data with
      | Some (c :: s) =>
          let w := upd_alerts (fun a => a ++ [c :: s]) w in
          upd_page (set_startBtn_disabled false) w
      | _ =>
          let w :=
            upd_gameState (fun _ =>
              mkSession (session_id data) (encounter data)
                (start_state data)) w in
          let w := upd_page (set_welcomeScreen DisplayNone) w in
          let w := upd_page (set_gameScreen DisplayBlock) w in
          let w := upd_hud (updateGameState (start_state data)) w in
          addEncounterBubbles (messagesOrEmpty (start_messages data)) w
      end
  | NetworkError | ParseError =>
      let w := upd_console (fun l => l ++ [Lit.startFailedLog]) w in
      let w := upd_alerts (fun a => a ++ [Lit.cannotStart]) w in
      upd_page (set_startBtn_disabled false) w
  end.

(** The click handler of the restart button. *)
Definition restartBtn_click (w : World) : World :=
  let w := upd_gameState (fun _ => mkSession None None None) w in
  let w := upd_page (set_gameOverScreen DisplayNone) w in
  let w := upd_page (set_welcomeScreen DisplayBlock) w in
  let w := upd_page (upd_chatMessages (fun _ => [])) w in
  upd_page (set_startBtn_disabled false) w.

Definition choiceUrl (sessionId : jsstring) : jsstring :=
  lit "/api/game/" ++ sessionId ++ lit "/choice".

(** [sendChoice], up to [fetch]. *)
Definition sendChoice (w : World) : World * option Request :=
  let input := trim (chatInput_value (page w)) in
  if negb (nonEmpty input) then (w, None)
  else
    match sessionId (gameState w) with
    | Some (c :: s) =>
        let w := upd_page (addMessage input player) w in
        let w := upd_page (set_chatInput_value []) w in
        let w := upd_page (set_chatInput_disabled true) w in
        let w := upd_page (set_sendBtn_disabled true) w in
        (w, Some (ChoiceRequest (choiceUrl (c :: s)) input))
    | _ => (upd_alerts (fun a => a ++ [Lit.startFirst]) w, None)
    end.

(** One resource of the result: pushed on [changes] when it is defined and
    not zero, with a plus sign when it is positive. *)
Definition pushChange (label : jsstring) (v : option Z)
    (changes : list jsstring) : list jsstring :=
  match v with
  | Some z =>
      if negb (z =? 0)%Z then
        changes
        ++ [label ++ (if (0 <? z)%Z then lit "+" else []) ++ numberToString z]
      else changes
  | None => changes
  end.

(** The callback of [data.result.gadgets.map]; [None] is [undefined]. *)
Definition gadgetText (g : GadgetChange) : option jsstring :=
  if strictEq (action g) (lit "acquire") then
    Some (id g ++ Lit.acquired ++ numberToString (amount g) ++ lit ")")
  else if strictEq (action g) (lit "lose") then
    Some (id g ++ Lit.lost ++ numberToString (amount g) ++ lit ")")
  else None.

(** [.filter(Boolean)] on values that are strings or [undefined]. *)
Fixpoint filterBoolean (l : list (option jsstring)) : list jsstring :=
  match l with
  | [] => []
  | Some (c :: s) :: l' => (c :: s) :: filterBoolean l'
  | _ :: l' => filterBoolean l'
  end.

(** The value of [resultText] when the block of [data.result] ends. *)
Definition resultText (result : ChoiceResult) : jsstring :=
  let resultText := [] in
  let resultText :=
    match result_resources result with
    | Some resources =>
        let changes := [] in
        let changes := pushChange Lit.healthLabel (health resources) changes in
        let changes := pushChange Lit.mentalLabel (mental resources) changes in
        let changes := pushChange Lit.moneyLabel (money resources) changes in
        if (0 <? length changes)%nat then
          resultText ++ Lit.resourceChange ++ join (lit ", ") changes
          ++ Lit.newline
        else resultText
    | None => resultText
    end in
  match result_gadgets result with
  | Some (g :: gs) =>
      let gadgetChanges := filterBoolean (map gadgetText (g :: gs)) in
      if (0 <? length gadgetChanges)%nat then
        resultText ++ Lit.gadgetChange ++ join (lit ", ") gadgetChanges
        ++ Lit.newline
      else resultText
  | _ => resultText
  end.

(** The [catch] block of [sendChoice]. *)
Definition sendChoice_catch (w : World) : World :=
  let w := upd_console (fun l => l ++ [Lit.choiceFailedLog]) w in
  let w := upd_page (addMessage Lit.tryAgain system) w in
  let w := upd_page (set_chatInput_disabled false) w in
  upd_page (set_sendBtn_disabled false) w.

(** The blocks of [sendChoice] after the response, in the order of the
    source: the story of the choice, the result, the end of the game, the
    next encounter. *)
Definition showStory (data : ChoiceData) (w : World) : World :=
  let story :=
    match choice_mapped data with
    | Some cm => orStr (story cm) (orStr (explanation cm) [])
    | None => []
    end in
  if nonEmpty story then upd_page (addMessage story story_) w else w.

Definition showResult (data : ChoiceData) (w : World) : World :=
  match result data with
  | Some r =>
      let resultText := resultText r in
      if nonEmpty resultText then
        upd_page (addMessage (trim resultText) result_) w
      else w
  | None => w
  end.

Definition showGameOver (data : ChoiceData) (w : World) : World :=
  let w := upd_page (set_gameOverScreen DisplayBlock) w in
  let w := upd_page (set_gameScreen DisplayNone) w in
  upd_page
    (set_game_over_reason_text (orStr (game_over_reason data) Lit.gameEnded)) w.

Definition showNextEncounter (data : ChoiceData) (w : World) : World :=
  if truthyJson (next_encounter data) then
    let w := upd_gameState (set_currentEncounter (next_encounter data)) w in
    addEncounterBubbles (messagesOrEmpty (messages data)) w
  else w.

(** The rest of [sendChoice]. *)
Definition sendChoice_resume (o : outcome ChoiceData) (w : World) : World :=
  match o with
  | Body data =>
      match error data with
      | Some (c :: s) =>
          let w := upd_page (addMessage (c :: s) system) w in
          let w := upd_page (set_chatInput_disabled false) w in
          upd_page (set_sendBtn_disabled false) w
      | _ =>
          let w := showStory data w in
          let w := showResult data w in
          let w := upd_hud (updateGameState (choice_state data)) w in
          match game_over data with
          | Some true => showGameOver data w
          | _ =>
              let w := showNextEncounter data w in
              let w := upd_page (set_chatInput_disabled false) w in
              let w := upd_page (set_sendBtn_disabled false) w in
              upd_page focus_chatInput w
          end
      end
  | NetworkError | ParseError => sendChoice_catch w
  end.

(** The [keypress] handler of the chat input. *)
Definition chatInput_keypress (key : jsstring) (w : World)
    : World * option Request :=
  if strictEq key (lit "Enter") then sendChoice w else (w, None).

(** ** The browser around the handlers

    The event loop runs one handler at a time. A due timer is the one with
    the least due time, the one registered first among equals; running it
    moves the clock to its due time unless the clock is already past it. *)

Fixpoint pickTimer (ts : list Timer) : option (Timer * list Timer) :=
  match ts with
  | [] => None
  | t :: ts' =>
      match pickTimer ts' with
      | Some (t', rest) =>
          if (due t' <? due t)%nat then Some (t', t :: rest) else Some (t, ts')
      | None => Some (t, [])
      end
  end.

Definition fireTimer (w : World) : World :=
  match pickTimer (timers w) with
  | None => w
  | Some (t, rest) =>
      let w := upd_timers (fun _ => rest) w in
      let w := upd_clock (fun c => Nat.max c (due t)) w in
      encounterTimeout (timer_wrap t) (timer_item t) w
  end.

(** The world after the next [k] timers have run. *)
Fixpoint fireTimers (k : nat) (w : World) : World :=
  match k with
  | 0 => w
  | S k => fireTimer (fireTimers k w)
  end.

(** The page together with the network: the requests sent so far and how
    many responses of each kind are still to come. *)
Record Browser := mkBrowser {
  world : World;
  sent : list Request;
  pendingStart : nat;
  pendingChoice : nat
}.

Inductive Event : Type :=
  | ClickStart
  | ClickRestart
  | ClickSend
  | KeyPress (key : jsstring)
  | TypeInput (value : jsstring)
  | StartResponse (o : outcome StartData)
  | ChoiceResponse (o : outcome ChoiceData)
  | TimerFires.

Definition countStart (r : option Request) : nat :=
  match r with Some StartRequest => 1 | _ => 0 end.

Definition countChoice (r : option Request) : nat :=
  match r with Some (ChoiceRequest _ _) => 1 | _ => 0 end.

Definition issue (b : Browser) (wr : World * option Request) : Browser :=
  mkBrowser (fst wr)
    (sent b ++ match snd wr with Some r => [r] | None => [] end)
    (pendingStart b + countStart (snd wr))
    (pendingChoice b + countChoice (snd wr)).

(** A response can only arrive for a request that is pending. *)
Definition step (e : Event) (b : Browser) : Browser :=
  match e with
  | ClickStart => issue b (startBtn_click (world b))
  | ClickRestart =>
      mkBrowser (restartBtn_click (world b)) (sent b) (pendingStart b)
        (pendingChoice b)
  | ClickSend => issue b (sendChoice (world b))
  | KeyPress key => issue b (chatInput_keypress key (world b))
  | TypeInput value =>
      mkBrowser (upd_page (set_chatInput_value value) (world b)) (sent b)
        (pendingStart b) (pendingChoice b)
  | StartResponse o =>
      match pendingStart b with
      | O => b
      | S n =>
          mkBrowser (startBtn_resume o (world b)) (sent b) n (pendingChoice b)
      end
  | ChoiceResponse o =>
      match pendingChoice b with
      | O => b
      | S n =>
          mkBrowser (sendChoice_resume o (world b)) (sent b) (pendingStart b) n
      end
  | TimerFires =>
      mkBrowser (fireTimer (world b)) (sent b) (pendingStart b)
        (pendingChoice b)
  end.

Definition run (es : list Event) (b : Browser) : Browser :=
  fold_left (fun b e => step e b) es b.

Definition isRestart (e : Event) : bool :=
  match e with ClickRestart => true | _ => false end.

(** The page as the script finds it when it is loaded, for a document whose
    three icon groups have three spans each, none of them empty, and with
    nothing in the transcript. *)
Definition initialWorld : World :=
  mkWorld (mkSession None None None)
    (mkPage DisplayUnset DisplayUnset DisplayUnset false [] false false 0 []
       [] 0)
    (mkHud (Some [false; false; false]) (Some [false; false; false])
       (Some [false; false; false]) [] [] [] [])
    [] [] 0 [] [].

Definition initialBrowser : Browser := mkBrowser initialWorld [] 0 0.

(** ** What the specification speaks of

    The definitions below follow the words of the specification; the
    theorems compare them with the handlers above. *)

(** The resource values the display shows: the field, its default when it
    is undefined, brought into the range from 0 to 3. *)
Definition clampSpec (v : Z) : Z :=
  if (v <? 0)%Z then 0%Z else if (3 <? v)%Z then 3%Z else v.

Definition shownSpec (field : option Z) (default : Z) : Z :=
  clampSpec (match field with Some v => v | None => default end).

Definition filledIcons (group : option (list bool)) : nat :=
  match group with
  | Some spans => length (List.filter negb spans)
  | None => 0
  end.

Definition iconCount (group : option (list bool)) : nat :=
  match group with
  | Some spans => length spans
  | None => 0
  end.

(** The story entry of a choice response. *)
Definition storyEntries (data : ChoiceData) : list ChatNode :=
  match choice_mapped data with
  | Some cm =>
      match story cm, explanation cm with
      | Some (c :: s), _ => [MessageDiv story_ (c :: s)]
      | _, Some (c :: s) => [MessageDiv story_ (c :: s)]
      | _, _ => []
      end
  | None => []
  end.

(** The deltas of the resource line: the non-zero ones, a positive one with
    an explicit plus sign. *)
Definition deltaSpec (label : jsstring) (v : option Z) : list jsstring :=
  match v with
  | Some z =>
      if (0 <? z)%Z then [label ++ lit "+" ++ numberToString z]
      else if (z <? 0)%Z then [label ++ numberToString z]
      else []
  | None => []
  end.

Definition deltasSpec (r : option Resources) : list jsstring :=
  match r with
  | Some r =>
      deltaSpec Lit.healthLabel (health r)
      ++ deltaSpec Lit.mentalLabel (mental r)
      ++ deltaSpec Lit.moneyLabel (money r)
  | None => []
  end.

(** The entries of the gadget line: acquire with [+amount], lose with
    [-amount], any other action dropped. *)
Definition gadgetSpec (g : GadgetChange) : list jsstring :=
  if decide (action g = lit "acquire") then
    [id g ++ Lit.acquired ++ numberToString (amount g) ++ lit ")"]
  else if decide (action g = lit "lose") then
    [id g ++ Lit.lost ++ numberToString (amount g) ++ lit ")"]
  else [].

Definition gadgetsSpec (gs : option (list GadgetChange)) : list jsstring :=
  match gs with
  | Some gs => concat (map gadgetSpec gs)
  | None => []
  end.

(** One line of the composite text: nothing when it has no entry. *)
Definition lineSpec (heading : jsstring) (entries : list jsstring) : jsstring :=
  match entries with
  | [] => []
  | _ :: _ => heading ++ join (lit ", ") entries ++ Lit.newline
  end.

Definition compositeSpec (r : ChoiceResult) : jsstring :=
  lineSpec Lit.resourceChange (deltasSpec (result_resources r))
  ++ lineSpec Lit.gadgetChange (gadgetsSpec (result_gadgets r)).

(** The result entry of a choice response. *)
Definition resultEntries (data : ChoiceData) : list ChatNode :=
  match result data with
  | Some r =>
      match compositeSpec r with
      | [] => []
      | c :: s => [MessageDiv result_ (trim (c :: s))]
      end
  | None => []
  end.

(** Whether a response that reports no error goes on to its next encounter. *)
Definition continues (data : ChoiceData) : bool :=
  match game_over data with
  | Some true => false
  | _ => truthyJson (next_encounter data)
  end.

(** The container a response adds to the transcript for its next encounter. *)
Definition encounterEntries (data : ChoiceData) (w : World) : list ChatNode :=
  if continues data then
    match messages data with
    | Some (_ :: _) => [EncounterGroup (length (wraps w))]
    | _ => []
    end
  else [].

(** The text a failed submission shows, when the outcome is a failure. *)
Definition failureText (o : outcome ChoiceData) : option jsstring :=
  match o with
  | Body data =>
      match error data with
      | Some (c :: s) => Some (c :: s)
      | _ => None
      end
  | NetworkError | ParseError => Some Lit.tryAgain
  end.

(** The nodes an item of an encounter stands for. *)
Definition itemNodes (m : Message) : list WrapChild :=
  if decide (type m = Some (lit "image")) then
    match url m with
    | Some (c :: s) => [EncounterImage (c :: s) (orStr (alt m) [])]
    | _ => []
    end
  else
    match trim (orStr (content m) []) with
    | [] => []
    | c :: s => [EncounterBubble (c :: s)]
    end.

Fixpoint countType (t : messageType) (l : list ChatNode) : nat :=
  match l with
  | [] => 0
  | MessageDiv t' _ :: l' =>
      (match t, t' with
       | player, player | system, system | story_, story_
       | result_, result_ => 1
       | _, _ => 0
       end) + countType t l'
  | EncounterGroup _ :: l' => countType t l'
  end.

(** The transcript with the entries [l] appended, one scroll to the bottom
    for each. *)
Definition appendChat (l : list ChatNode) (p : Page) : Page :=
  mkPage (welcomeScreen p) (gameScreen p) (gameOverScreen p)
    (startBtn_disabled p) (chatInput_value p) (chatInput_disabled p)
    (sendBtn_disabled p) (chatInput_focus p) (game_over_reason_text p)
    (chatMessages p ++ l) (chatMessages_scroll p + length l).

(** The chat entries a response leaves in the transcript, and the encounter
    it puts into the session record, if any. *)
Definition responseEntries (o : outcome ChoiceData) (w : World)
    : list ChatNode :=
  match failureText o, o with
  | Some msg, _ => [MessageDiv system msg]
  | None, Body data =>
      storyEntries data ++ resultEntries data ++ encounterEntries data w
  | None, _ => []
  end.

Definition appliedEncounter (o : outcome ChoiceData) : option (option json) :=
  match failureText o, o with
  | None, Body data =>
      if continues data then Some (next_encounter data) else None
  | _, _ => None
  end.

(** The input field and the send button are both disabled. *)
Definition inputDisabled (w : World) : Prop :=
  chatInput_disabled (page w) = true /\ sendBtn_disabled (page w) = true.

Definition isChoiceResponse (e : Event) : bool :=
  match e with ChoiceResponse _ => true | _ => false end.

(** At most one start request is pending, and the start button is disabled
    while one is. *)
Definition startGuarded (b : Browser) : Prop :=
  pendingStart b = 0
  \/ (pendingStart b = 1 /\ startBtn_disabled (page (world b)) = true).

(** The resource values the display shows for a state. *)
Definition shownHealth (s : GameState) : Z :=
  shownSpec (match resources s with Some r => health r | None => None end) 3.
Definition shownMental (s : GameState) : Z :=
  shownSpec (match resources s with Some r => mental r | None => None end) 3.
Definition shownMoney (s : GameState) : Z :=
  shownSpec (match resources s with Some r => money r | None => None end) 0.

(** A character [trim] keeps. *)
Definition solid (c : N) : Prop := isWhiteSpace c = false.

(** A text that ends in a character [trim] keeps. *)
Definition endsSolid (s : jsstring) : Prop :=
  exists pre d, s = pre ++ [d] /\ solid d.

(** A text of whole lines: it starts with a character [trim] keeps and ends
    in one followed by a line break. *)
Definition wholeLines (s : jsstring) : Prop :=
  exists c mid d, s = c :: mid ++ [d; 10%N] /\ solid c /\ solid d.

(** The timers of a staggered reveal that starts at time [t0]. *)
Definition staggered (t0 wrap : nat) (items : list Message) : list Timer :=
  imap (fun index m => mkTimer (t0 + index * 500) wrap m) items.

(** ** Concrete runs *)

Module Run.
Local Open Scope Z_scope.

Definition hello : Message := mkMessage None (Some (lit "hello")) None None.

Definition started : StartData :=
  mkStartData None (Some (lit "s1")) (Some (JObj []))
    (Some (mkGameState (Some (mkResources (Some 3) (Some 3) (Some 0))) None))
    (Some [hello]).

(** A choice is sent, and restart is clicked before its response arrives. *)
Definition restartedInFlight : Browser :=
  run [ClickStart; StartResponse (Body started); TypeInput (lit "go");
       ClickSend; ClickRestart] initialBrowser.

Definition lateResponse : ChoiceData :=
  mkChoiceData None (Some (mkChoiceMapped (Some (lit "you go")) None)) None
    None None None (Some (JObj [])) (Some [hello]).

Definition gameOverResponse : ChoiceData :=
  mkChoiceData None None None None (Some true) None (Some (JObj []))
    (Some [hello]).

(** The resources [{health: -1, mental: 5, money: 2}]. *)
Definition outOfRange : GameState :=
  mkGameState (Some (mkResources (Some (-1)) (Some 5) (Some 2))) None.

(** A result with the resources [{health: -1, money: 0}]. *)
Definition hurt : ChoiceData :=
  mkChoiceData None None
    (Some (mkChoiceResult (Some (mkResources (Some (-1)) None (Some 0))) None))
    None None None None None.

(** A text, an image with an empty url, a text. *)
Definition threeItems : list Message :=
  [mkMessage None (Some (lit " first ")) None None;
   mkMessage (Some (lit "image")) None (Some []) (Some (lit "a picture"));
   mkMessage (Some (lit "text")) (Some (lit "second")) None None].

Definition refused : ChoiceData :=
  mkChoiceData (Some (lit "no such session")) None None None None None None
    None.

(** A choice is sent and its response is still to come. *)
Definition choiceInFlight : Browser :=
  run [ClickStart; StartResponse (Body started); TypeInput (lit "go");
       ClickSend] initialBrowser.

Definition blankInput : Browser :=
  run [ClickStart; StartResponse (Body started);
       TypeInput [32; 9; 10; 12288]%N] initialBrowser.

End Run.

(** ** Further notions for the properties of the handlers *)

Definition isTypeInput (e : Event) : bool :=
  match e with TypeInput _ => true | _ => false end.


Fixpoint countChoiceRequests (l : list Request) : nat :=
  match l with
  | [] => 0
  | ChoiceRequest _ _ :: l' => S (countChoiceRequests l')
  | StartRequest :: l' => countChoiceRequests l'
  end.

Fixpoint countStartRequests (l : list Request) : nat :=
  match l with
  | [] => 0
  | StartRequest :: l' => S (countStartRequests l')
  | ChoiceRequest _ _ :: l' => countStartRequests l'
  end.

(** The events that empty the transcript. *)
Definition clearsTranscript (e : Event) : bool :=
  match e with ClickStart | ClickRestart => true | _ => false end.

(** At most one choice request was sent since [n] of them had been, and the
    input field is empty once it was. *)
Definition sentOnce (n : nat) (b : Browser) : Prop :=
  countChoiceRequests (sent b) = n
  \/ (countChoiceRequests (sent b) = S n
      /\ chatInput_value (page (world b)) = []).

(** A session was started and no start request is pending. *)
Definition startSettled (b : Browser) : Prop :=
  pendingStart b = 0 /\ startBtn_disabled (page (world b)) = true.

(** The text a failed start shows in its alert, when the outcome is a
    failure. *)
Definition startFailureText (o : outcome StartData) : option jsstring :=
  match o with
  | Body data =>
      match start_error data with
      | Some (c :: s) => Some (c :: s)
      | _ => None
      end
  | NetworkError | ParseError => Some Lit.cannotStart
  end.

(** A delta the resource line does not list. *)
Definition noDelta (v : option Z) : Prop := v = None \/ v = Some 0%Z.

(** A gadget entry the gadget line does not list. *)
Definition otherAction (g : GadgetChange) : Prop :=
  action g <> lit "acquire" /\ action g <> lit "lose".

(** What the display shows for the state [s], given the display before:
    the three labels, in each icon group as many filled spans as the value
    (out of the spans the group has), and the gadget list. *)
Definition displays (s : GameState) (before after : Hud) : Prop :=
  (health_value after = numberToString (shownHealth s) ++ lit "/3"
   /\ mental_value after = numberToString (shownMental s) ++ lit "/3"
   /\ money_value after = numberToString (shownMoney s) ++ lit "/3")
  /\ (filledIcons (health_icons after)
       = Nat.min (Z.to_nat (shownHealth s)) (iconCount (health_icons before))
      /\ filledIcons (mental_icons after)
         = Nat.min (Z.to_nat (shownMental s)) (iconCount (mental_icons before))
      /\ filledIcons (money_icons after)
         = Nat.min (Z.to_nat (shownMoney s)) (iconCount (money_icons before)))
  /\ (iconCount (health_icons after) = iconCount (health_icons before)
      /\ iconCount (mental_icons after) = iconCount (mental_icons before)
      /\ iconCount (money_icons after) = iconCount (money_icons before))
  /\ gadgets_list after
     = match
         join (lit ", ")
           (map fst (match gadgets s with Some g => g | None => [] end))
       with
       | [] => Lit.none
       | c :: t => c :: t
       end.

(** The display follows the state of a response: it shows the state when
    the response has one and is left as it is otherwise. *)
Definition displayFollows (st : option GameState) (before after : Hud)
    : Prop :=
  match st with
  | Some s => displays s before after
  | None => after = before
  end.

(** ** The page and its user

    [step] runs the handler of an event whenever the event is fired, as a
    script can fire it. The page itself delivers no click, no key and no
    typing of the player to a control that is disabled. *)
Definition delivered (e : Event) (w : World) : bool :=
  match e with
  | ClickStart => negb (startBtn_disabled (page w))
  | ClickSend => negb (sendBtn_disabled (page w))
  | KeyPress _ | TypeInput _ => negb (chatInput_disabled (page w))
  | ClickRestart | StartResponse _ | ChoiceResponse _ | TimerFires => true
  end.

Definition deliverStep (e : Event) (b : Browser) : Browser :=
  if delivered e (world b) then step e b else b.

(** The browser after the page has seen the events [es]. *)
Definition deliver (es : list Event) (b : Browser) : Browser :=
  fold_left (fun b e => deliverStep e b) es b.

(** Both input controls are disabled and [n] choice requests were sent. *)
Definition stuck (n : nat) (b : Browser) : Prop :=
  inputDisabled (world b) /\ countChoiceRequests (sent b) = n.

Module More.
Local Open Scope Z_scope.

(** A session is live and the player has typed a choice. *)
Definition typed : Browser :=
  run [ClickStart; StartResponse (Body Run.started); TypeInput (lit " go ")]
    initialBrowser.

(** The player has typed a choice on the welcome view. *)
Definition typedEarly : Browser := run [TypeInput (lit "go")] initialBrowser.

Definition startRefused : StartData :=
  mkStartData (Some (lit "server busy")) None None None None.

Definition continued : ChoiceData :=
  mkChoiceData None (Some (mkChoiceMapped (Some []) (Some (lit "you wait"))))
    None None (Some false) None (Some (JObj [])) (Some [Run.hello]).

(** The response that ends the game, with the last state and a next
    encounter that is not to be shown. *)
Definition lastBlow : ChoiceData :=
  mkChoiceData None None None
    (Some (mkGameState (Some (mkResources (Some 0) (Some 5) (Some 2)))
             (Some [(lit "key", 1)])))
    (Some true) (Some (lit "you fell")) (Some (JObj [])) (Some [Run.hello]).

Definition nothingHappens : ChoiceResult :=
  mkChoiceResult (Some (mkResources (Some 0) None (Some 0)))
    (Some [mkGadgetChange (lit "key") (lit "inspect") 1]).

End More.

(** * Theorems *)

(** ** Strings *)

Lemma strictEq_true (a b : jsstring) : strictEq a b = true <-> a = b.
Proof.
  revert b; induction a as [|x a IH]; intros [|y b]; simpl; try easy.
  rewrite andb_true_iff, N.eqb_eq, IH. split.
  - intros [-> ->]; reflexivity.
  - intros [= -> ->]; split; reflexivity.
Qed.

Lemma strictEq_decide (a b : jsstring) :
  strictEq a b = bool_decide (a = b).
Proof.
  destruct (strictEq a b) eqn:E.
  - apply strictEq_true in E. symmetry; apply bool_decide_eq_true; exact E.
  - symmetry; apply bool_decide_eq_false. intros H.
    apply strictEq_true in H. congruence.
Qed.

(** ** The composite result text *)

Lemma pushChange_deltaSpec (label : jsstring) (v : option Z)
    (changes : list jsstring) :
  pushChange label v changes = changes ++ deltaSpec label v.
Proof.
  unfold pushChange, deltaSpec. destruct v as [z|]; [|now rewrite app_nil_r].
  destruct (Z.eqb_spec z 0) as [->|Hz]; simpl.
  - now rewrite app_nil_r.
  - destruct (Z.ltb_spec 0 z); [reflexivity|].
    destruct (Z.ltb_spec z 0); [reflexivity|lia].
Qed.

Lemma gadgetText_gadgetSpec (g : GadgetChange) :
  filterBoolean [gadgetText g] = gadgetSpec g.
Proof.
  unfold gadgetText, gadgetSpec. rewrite !strictEq_decide.
  repeat case_bool_decide; repeat case_decide; try contradiction;
    try reflexivity; destruct (id g); reflexivity.
Qed.

Lemma filterBoolean_app (l1 l2 : list (option jsstring)) :
  filterBoolean (l1 ++ l2) = filterBoolean l1 ++ filterBoolean l2.
Proof.
  induction l1 as [|[[|c s]|] l1 IH]; simpl; rewrite ?IH; reflexivity.
Qed.

Lemma filterBoolean_gadgets (gs : list GadgetChange) :
  filterBoolean (map gadgetText gs) = concat (map gadgetSpec gs).
Proof.
  induction gs as [|g gs IH]; [reflexivity|].
  change (map gadgetText (g :: gs)) with ([gadgetText g] ++ map gadgetText gs).
  rewrite filterBoolean_app, gadgetText_gadgetSpec, IH. reflexivity.
Qed.

Lemma line_of_entries (heading text : jsstring) (entries : list jsstring) :
  (if (0 <? length entries)%nat
   then text ++ heading ++ join (lit ", ") entries ++ Lit.newline
   else text)
  = text ++ lineSpec heading entries.
Proof.
  destruct entries; simpl; [now rewrite app_nil_r | reflexivity].
Qed.

(** The text the source builds is the composite of the two lines. *)
Lemma resultText_compositeSpec (r : ChoiceResult) :
  resultText r = compositeSpec r.
Proof.
  unfold resultText, compositeSpec, deltasSpec, gadgetsSpec.
  destruct (result_resources r) as [res|], (result_gadgets r) as [[|g gs]|];
    rewrite ?pushChange_deltaSpec, ?line_of_entries, ?filterBoolean_gadgets;
    simpl; rewrite <- ?app_assoc, ?app_nil_r; reflexivity.
Qed.

(** ** The blocks of a choice response *)

Lemma appendChat_nil (w : World) : upd_page (appendChat []) w = w.
Proof.
  destruct w as [g [] h ws ts ck al co]; unfold upd_page, appendChat; simpl.
  rewrite app_nil_r, Nat.add_0_r. reflexivity.
Qed.

Lemma appendChat_one (text : jsstring) (t : messageType) (w : World) :
  upd_page (addMessage text t) w = upd_page (appendChat [MessageDiv t text]) w.
Proof.
  destruct w as [g [] h ws ts ck al co]; unfold upd_page, appendChat; simpl.
  rewrite Nat.add_1_r. reflexivity.
Qed.

Lemma appendChat_app (l1 l2 : list ChatNode) (w : World) :
  upd_page (appendChat l2) (upd_page (appendChat l1) w)
  = upd_page (appendChat (l1 ++ l2)) w.
Proof.
  unfold upd_page, appendChat; simpl.
  rewrite length_app, <- app_assoc, Nat.add_assoc. reflexivity.
Qed.

Lemma showStory_appendChat (data : ChoiceData) (w : World) :
  showStory data w = upd_page (appendChat (storyEntries data)) w.
Proof.
  unfold showStory, storyEntries.
  destruct (choice_mapped data) as [[[[|? ?]|] [[|? ?]|]]|]; simpl;
    rewrite ?appendChat_one, ?appendChat_nil; reflexivity.
Qed.

Lemma showResult_appendChat (data : ChoiceData) (w : World) :
  showResult data w = upd_page (appendChat (resultEntries data)) w.
Proof.
  unfold showResult, resultEntries.
  destruct (result data) as [r|]; [|now rewrite appendChat_nil].
  rewrite resultText_compositeSpec.
  destruct (compositeSpec r); simpl;
    rewrite ?appendChat_one, ?appendChat_nil; reflexivity.
Qed.

(** A response that reports no error: the entries of the story and of the
    result, the resource display, then either the end of the game or the
    next encounter and the controls. *)
Lemma sendChoice_resume_ok (data : ChoiceData) (w : World) :
  failureText (Body data) = None ->
  sendChoice_resume (Body data) w
  = let w1 :=
      upd_hud (updateGameState (choice_state data))
        (upd_page (appendChat (storyEntries data ++ resultEntries data)) w) in
    if continues data
    then
      upd_page (fun p =>
                  focus_chatInput
                    (set_sendBtn_disabled false
                       (set_chatInput_disabled false p)))
        (addEncounterBubbles (messagesOrEmpty (messages data))
           (upd_gameState (set_currentEncounter (next_encounter data)) w1))
    else
      match game_over data with
      | Some true => showGameOver data w1
      | _ =>
          upd_page (fun p =>
                      focus_chatInput
                        (set_sendBtn_disabled false
                           (set_chatInput_disabled false p)))
            w1
      end.
Proof.
  intros He. unfold sendChoice_resume, failureText in *.
  destruct (error data) as [[|c s]|]; try discriminate; clear He.
  all: rewrite showStory_appendChat, showResult_appendChat, appendChat_app.
  all: unfold continues, showNextEncounter.
  all: destruct (game_over data) as [[|]|]; try reflexivity.
  all: destruct (truthyJson (next_encounter data)); reflexivity.
Qed.

(** ** Submitting a choice *)

(** C2: when the input is empty or only whitespace, so that nothing is left
    of it after trimming, [sendChoice] returns the world as it found it and
    sends nothing: no request, no chat entry, no alert, no change at all;
    so do a click on the send button and every key pressed in the input. *)
Theorem C2_blank_input_is_silent_noop (b : Browser) :
  trim (chatInput_value (page (world b))) = [] ->
  sendChoice (world b) = (world b, None)
  /\ step ClickSend b = b
  /\ forall key, step (KeyPress key) b = b.
Proof.
  intros Hblank.
  assert (Hsend : sendChoice (world b) = (world b, None)).
  { unfold sendChoice. rewrite Hblank. reflexivity. }
  assert (Hissue : issue b (world b, None) = b).
  { destruct b; unfold issue; simpl.
    rewrite app_nil_r, !Nat.add_0_r. reflexivity. }
  split; [exact Hsend|]. split.
  - simpl. rewrite Hsend. exact Hissue.
  - intros key. simpl. unfold chatInput_keypress.
    destruct (strictEq key (lit "Enter")); rewrite ?Hsend; exact Hissue.
Qed.

Lemma C2_blank_input_witness :
  trim (chatInput_value (page (world Run.blankInput))) = []
  /\ step ClickSend Run.blankInput = Run.blankInput.
Proof.
  split; [reflexivity|].
  apply (C2_blank_input_is_silent_noop Run.blankInput). reflexivity.
Defined.

Lemma sendChoice_gameState (w : World) :
  gameState (fst (sendChoice w)) = gameState w.
Proof.
  unfold sendChoice.
  destruct (negb _); [reflexivity|].
  destruct (sessionId (gameState w)) as [[|c s]|]; reflexivity.
Qed.

(** C6: a choice submission that fails, by an error field in the response
    or by a rejected request or body, leaves the session record as it was
    before the request (sending does not touch it, and neither does the
    failed response), appends the error as one system entry, and enables
    the input field and the send button again. *)
Theorem C6_failed_choice_keeps_session (w0 w : World)
    (o : outcome ChoiceData) (msg : jsstring) :
  failureText o = Some msg ->
  gameState (fst (sendChoice w0)) = gameState w0
  /\ gameState (sendChoice_resume o w) = gameState w
  /\ chatMessages (page (sendChoice_resume o w))
     = chatMessages (page w) ++ [MessageDiv system msg]
  /\ chatInput_disabled (page (sendChoice_resume o w)) = false
  /\ sendBtn_disabled (page (sendChoice_resume o w)) = false.
Proof.
  intros Hfail. split; [apply sendChoice_gameState|].
  destruct o as [| |data]; simpl in Hfail.
  - injection Hfail as <-. repeat split; reflexivity.
  - injection Hfail as <-. repeat split; reflexivity.
  - unfold sendChoice_resume.
    destruct (error data) as [[|c s]|]; try discriminate.
    injection Hfail as <-. repeat split; reflexivity.
Qed.

Lemma C6_failed_choice_witness :
  failureText (Body Run.refused) = Some (lit "no such session")
  /\ gameState (sendChoice_resume (Body Run.refused) (world Run.choiceInFlight))
     = gameState (world Run.choiceInFlight).
Proof.
  split; [reflexivity|].
  apply (C6_failed_choice_keeps_session initialWorld (world Run.choiceInFlight)
           (Body Run.refused) (lit "no such session")).
  reflexivity.
Defined.

(** What [sendChoice] leaves behind when it sends a request: the trimmed
    input as a player entry, an empty input field, both controls disabled,
    and a request to the endpoint of the session. *)
Lemma sendChoice_sends (w0 w : World) (req : Request) :
  sendChoice w0 = (w, Some req) ->
  chatInput_disabled (page w) = true
  /\ sendBtn_disabled (page w) = true
  /\ chatInput_value (page w) = []
  /\ chatMessages (page w)
     = chatMessages (page w0)
       ++ [MessageDiv player (trim (chatInput_value (page w0)))]
  /\ exists sid,
       sessionId (gameState w0) = Some sid
       /\ req = ChoiceRequest (choiceUrl sid)
                  (trim (chatInput_value (page w0))).
Proof.
  unfold sendChoice. destruct (negb _); [discriminate|].
  destruct (sessionId (gameState w0)) as [[|c s]|]; try discriminate.
  intros [= <- <-]. repeat split. exists (c :: s). split; reflexivity.
Qed.

(** ** A response that arrives after a restart *)

(** No part of [sendChoice] writes [sessionId] or [state] of the session
    record. *)
Lemma sendChoice_resume_session (o : outcome ChoiceData) (w : World) :
  sessionId (gameState (sendChoice_resume o w)) = sessionId (gameState w)
  /\ state (gameState (sendChoice_resume o w)) = state (gameState w).
Proof.
  destruct o as [| |data]; try (split; reflexivity).
  destruct (failureText (Body data)) as [msg|] eqn:Hf.
  - unfold sendChoice_resume. simpl in Hf.
    destruct (error data) as [[|c s]|]; try discriminate. split; reflexivity.
  - rewrite (sendChoice_resume_ok data w Hf). cbv zeta.
    destruct (continues data).
    + destruct (messagesOrEmpty (messages data)); split; reflexivity.
    + destruct (game_over data) as [[|]|]; split; reflexivity.
Qed.

(** C1, as the code has it: a choice response that arrives after the
    restart button reset the session is applied like any other. It leaves
    [sessionId] and [state] of the fresh record absent, but it puts its
    [next_encounter] into [currentEncounter] when it reports no error, does
    not end the game and has a next encounter, and its chat entries (the
    error, or the story, the result and the container of the next
    encounter) are appended to the transcript the restart has emptied. *)
Theorem C1_late_response_is_applied (w0 : World) (o : outcome ChoiceData) :
  sessionId (gameState (sendChoice_resume o (restartBtn_click w0))) = None
  /\ state (gameState (sendChoice_resume o (restartBtn_click w0))) = None
  /\ currentEncounter (gameState (sendChoice_resume o (restartBtn_click w0)))
     = match appliedEncounter o with Some e => e | None => None end
  /\ chatMessages (page (sendChoice_resume o (restartBtn_click w0)))
     = responseEntries o (restartBtn_click w0).
Proof.
  destruct (sendChoice_resume_session o (restartBtn_click w0)) as [-> ->].
  split; [reflexivity|]. split; [reflexivity|].
  unfold appliedEncounter, responseEntries.
  destruct o as [| |data]; try (split; reflexivity).
  destruct (failureText (Body data)) as [msg|] eqn:Hf.
  - unfold sendChoice_resume. simpl in Hf.
    destruct (error data) as [[|c s]|]; try discriminate.
    injection Hf as <-. split; reflexivity.
  - rewrite (sendChoice_resume_ok data _ Hf). cbv zeta.
    unfold encounterEntries.
    destruct (continues data).
    + destruct (messages data) as [[|m ms]|]; simpl;
        rewrite <- ?app_assoc, ?app_nil_r; split; reflexivity.
    + destruct (game_over data) as [[|]|]; simpl; rewrite ?app_nil_r;
        split; reflexivity.
Qed.

(** C1, as the specification states it, fails: the restart is clicked while
    a choice is in flight, the record is fresh, and the late response then
    sets [currentEncounter] and appends its story and a container for its
    messages. *)
Lemma C1_late_response_counterexample :
  pendingChoice Run.restartedInFlight = 1
  /\ gameState (world Run.restartedInFlight) = mkSession None None None
  /\ chatMessages (page (world Run.restartedInFlight)) = []
  /\ gameState (world (step (ChoiceResponse (Body Run.lateResponse))
                         Run.restartedInFlight))
     = mkSession None (Some (JObj [])) None
  /\ chatMessages (page (world (step (ChoiceResponse (Body Run.lateResponse))
                                  Run.restartedInFlight)))
     = [MessageDiv story_ (lit "you go"); EncounterGroup 1]
  /\ gameState (world (step (ChoiceResponse (Body Run.lateResponse))
                         Run.restartedInFlight))
     <> gameState (world Run.restartedInFlight)
  /\ chatMessages (page (world (step (ChoiceResponse (Body Run.lateResponse))
                                  Run.restartedInFlight)))
     <> chatMessages (page (world Run.restartedInFlight)).
Proof. repeat split; discriminate. Qed.

(** ** The controls across events *)

Lemma addEncounterBubbles_controls (items : list Message) (w : World) :
  startBtn_disabled (page (addEncounterBubbles items w))
  = startBtn_disabled (page w)
  /\ chatInput_disabled (page (addEncounterBubbles items w))
     = chatInput_disabled (page w)
  /\ sendBtn_disabled (page (addEncounterBubbles items w))
     = sendBtn_disabled (page w).
Proof. destruct items; repeat split. Qed.

Lemma encounterTimeout_controls (wrap : nat) (m : Message) (w : World) :
  startBtn_disabled (page (encounterTimeout wrap m w))
  = startBtn_disabled (page w)
  /\ chatInput_disabled (page (encounterTimeout wrap m w))
     = chatInput_disabled (page w)
  /\ sendBtn_disabled (page (encounterTimeout wrap m w))
     = sendBtn_disabled (page w).
Proof. unfold encounterTimeout. repeat case_match; repeat split. Qed.

Lemma fireTimer_controls (w : World) :
  startBtn_disabled (page (fireTimer w)) = startBtn_disabled (page w)
  /\ chatInput_disabled (page (fireTimer w)) = chatInput_disabled (page w)
  /\ sendBtn_disabled (page (fireTimer w)) = sendBtn_disabled (page w).
Proof.
  unfold fireTimer. destruct (pickTimer (timers w)) as [[t rest]|];
    [|repeat split].
  destruct (encounterTimeout_controls (timer_wrap t) (timer_item t)
              (upd_clock (fun c => Nat.max c (due t))
                 (upd_timers (fun _ => rest) w))) as (-> & -> & ->).
  repeat split.
Qed.

Lemma startBtn_resume_input (o : outcome StartData) (w : World) :
  chatInput_disabled (page (startBtn_resume o w)) = chatInput_disabled (page w)
  /\ sendBtn_disabled (page (startBtn_resume o w)) = sendBtn_disabled (page w).
Proof.
  destruct o as [| |data]; try (split; reflexivity).
  unfold startBtn_resume.
  destruct (start_error data) as [[|c s]|]; try (split; reflexivity).
  all: match goal with
       | |- context [addEncounterBubbles ?items ?w'] =>
           destruct (addEncounterBubbles_controls items w') as (_ & -> & ->)
       end; split; reflexivity.
Qed.

Lemma sendChoice_input (w : World) :
  inputDisabled w -> inputDisabled (fst (sendChoice w)).
Proof.
  intros H. unfold sendChoice. destruct (negb _); [exact H|].
  destruct (sessionId (gameState w)) as [[|c s]|]; try exact H.
  split; reflexivity.
Qed.

(** Only the response to a choice enables the input field and the send
    button: every other event leaves them disabled when they are. *)
Lemma step_keeps_input_disabled (e : Event) (b : Browser) :
  isChoiceResponse e = false ->
  inputDisabled (world b) -> inputDisabled (world (step e b)).
Proof.
  intros He H. destruct e; try discriminate; simpl.
  - unfold startBtn_click. destruct (startBtn_disabled _); exact H.
  - exact H.
  - apply sendChoice_input, H.
  - unfold chatInput_keypress. destruct (strictEq _ _); [|exact H].
    apply sendChoice_input, H.
  - exact H.
  - destruct (pendingStart b); [exact H|]. unfold inputDisabled. simpl.
    destruct (startBtn_resume_input o (world b)) as [-> ->]. exact H.
  - unfold inputDisabled.
    destruct (fireTimer_controls (world b)) as (_ & -> & ->). exact H.
Qed.

Lemma run_keeps_input_disabled (es : list Event) (b : Browser) :
  forallb (fun e => negb (isChoiceResponse e)) es = true ->
  inputDisabled (world b) -> inputDisabled (world (run es b)).
Proof.
  revert b; induction es as [|e es IH]; intros b Hes H; [exact H|].
  simpl in Hes. apply andb_true_iff in Hes as [He Hes].
  apply negb_true_iff in He.
  apply (IH (step e b) Hes), step_keeps_input_disabled; assumption.
Qed.

(** A game-over response leaves the input field and the send button as they
    are, and so does a successful start. *)
Lemma game_over_keeps_input (data : ChoiceData) (w : World) :
  failureText (Body data) = None ->
  game_over data = Some true ->
  inputDisabled w -> inputDisabled (sendChoice_resume (Body data) w).
Proof.
  intros Hok Hover H. rewrite (sendChoice_resume_ok data w Hok).
  unfold continues. rewrite Hover. exact H.
Qed.

Lemma startBtn_resume_success (data : StartData) (w : World) :
  truthyStr (start_error data) = false ->
  gameState (startBtn_resume (Body data) w)
  = mkSession (session_id data) (encounter data) (start_state data)
  /\ welcomeScreen (page (startBtn_resume (Body data) w)) = DisplayNone
  /\ gameScreen (page (startBtn_resume (Body data) w)) = DisplayBlock.
Proof.
  intros He. unfold startBtn_resume.
  destruct (start_error data) as [[|c s]|]; try discriminate;
    destruct (messagesOrEmpty (start_messages data)); repeat split.
Qed.

(** ** Starting a session *)

Lemma issue_nothing (b : Browser) : issue b (world b, None) = b.
Proof.
  destruct b; unfold issue; simpl. rewrite app_nil_r, !Nat.add_0_r. reflexivity.
Qed.

Lemma startBtn_click_disabled (w : World) :
  startBtn_disabled (page w) = true -> startBtn_click w = (w, None).
Proof. intros H. unfold startBtn_click. rewrite H. reflexivity. Qed.

Lemma startBtn_click_enabled (w : World) :
  startBtn_disabled (page w) = false ->
  snd (startBtn_click w) = Some StartRequest
  /\ startBtn_disabled (page (fst (startBtn_click w))) = true
  /\ chatMessages (page (fst (startBtn_click w))) = [].
Proof. intros H. unfold startBtn_click. rewrite H. repeat split. Qed.

Lemma sendChoice_start (w : World) :
  startBtn_disabled (page (fst (sendChoice w))) = startBtn_disabled (page w)
  /\ countStart (snd (sendChoice w)) = 0.
Proof.
  unfold sendChoice. destruct (negb _); [split; reflexivity|].
  destruct (sessionId (gameState w)) as [[|c s]|]; split; reflexivity.
Qed.

Lemma sendChoice_resume_start (o : outcome ChoiceData) (w : World) :
  startBtn_disabled (page (sendChoice_resume o w)) = startBtn_disabled (page w).
Proof.
  destruct o as [| |data]; try reflexivity.
  destruct (failureText (Body data)) as [msg|] eqn:Hf.
  - unfold sendChoice_resume. simpl in Hf.
    destruct (error data) as [[|c s]|]; try discriminate. reflexivity.
  - rewrite (sendChoice_resume_ok data w Hf). cbv zeta.
    destruct (continues data).
    + destruct (messagesOrEmpty (messages data)); reflexivity.
    + destruct (game_over data) as [[|]|]; reflexivity.
Qed.

Lemma step_keeps_start_guarded (e : Event) (b : Browser) :
  isRestart e = false -> startGuarded b -> startGuarded (step e b).
Proof.
  intros He H. unfold startGuarded in *. destruct e; try discriminate; simpl.
  - destruct (startBtn_disabled (page (world b))) eqn:Hd.
    + rewrite (startBtn_click_disabled _ Hd). simpl. rewrite Hd.
      rewrite Nat.add_0_r. exact H.
    + destruct (startBtn_click_enabled _ Hd) as (-> & -> & _).
      destruct H as [->|[_ H]]; [right; split; reflexivity | discriminate].
  - destruct (sendChoice_start (world b)) as [-> ->].
    rewrite Nat.add_0_r. exact H.
  - unfold chatInput_keypress. destruct (strictEq _ _).
    + destruct (sendChoice_start (world b)) as [-> ->].
      rewrite Nat.add_0_r. exact H.
    + simpl. rewrite Nat.add_0_r. exact H.
  - exact H.
  - destruct (pendingStart b) as [|n] eqn:Hp; [rewrite Hp; exact H|].
    simpl. left. destruct H as [H|[H _]]; [discriminate | congruence].
  - destruct (pendingChoice b); [exact H|]. simpl.
    rewrite sendChoice_resume_start. exact H.
  - destruct (fireTimer_controls (world b)) as (-> & _). exact H.
Qed.

Lemma run_keeps_start_guarded (es : list Event) (b : Browser) :
  forallb (fun e => negb (isRestart e)) es = true ->
  startGuarded b -> startGuarded (run es b).
Proof.
  revert b; induction es as [|e es IH]; intros b Hes H; [exact H|].
  simpl in Hes. apply andb_true_iff in Hes as [He Hes].
  apply negb_true_iff in He.
  apply (IH (step e b) Hes), step_keeps_start_guarded; assumption.
Qed.

Lemma clicks_on_disabled_start (n : nat) (b : Browser) :
  startBtn_disabled (page (world b)) = true ->
  run (repeat ClickStart n) b = b.
Proof.
  intros Hd. induction n as [|n IH]; [reflexivity|].
  simpl. rewrite (startBtn_click_disabled _ Hd), issue_nothing. exact IH.
Qed.

(** C9: over every sequence of events that has no restart in it, at most one
    start request is pending at any time, from a state where none is. The
    first click on the enabled start button disables it in the same step
    that sends the request, so however many clicks follow before the
    response, one start request is sent and one is pending. *)
Theorem C9_one_start_request (b : Browser) (es : list Event) (n : nat) :
  pendingStart b = 0 ->
  forallb (fun e => negb (isRestart e)) es = true ->
  pendingStart (run es b) <= 1
  /\ (startBtn_disabled (page (world b)) = false ->
      startBtn_disabled (page (world (step ClickStart b))) = true
      /\ sent (run (repeat ClickStart (S n)) b) = sent b ++ [StartRequest]
      /\ pendingStart (run (repeat ClickStart (S n)) b) = 1).
Proof.
  intros Hp Hes. split.
  - assert (H : startGuarded (run es b)).
    { apply run_keeps_start_guarded; [exact Hes | left; exact Hp]. }
    destruct H as [->|[-> _]]; lia.
  - intros Hd.
    destruct (startBtn_click_enabled _ Hd) as (Hreq & Hdis & _).
    assert (Hfirst :
              startBtn_disabled (page (world (step ClickStart b))) = true).
    { simpl. exact Hdis. }
    split; [exact Hfirst|].
    change (run (repeat ClickStart (S n)) b)
      with (run (repeat ClickStart n) (step ClickStart b)).
    rewrite (clicks_on_disabled_start n _ Hfirst). simpl.
    rewrite Hreq, Hp. split; reflexivity.
Qed.

Lemma C9_one_start_request_witness :
  (pendingStart initialBrowser = 0
   /\ startBtn_disabled (page (world initialBrowser)) = false)
  /\ sent (run [ClickStart; ClickStart] initialBrowser) = [StartRequest]
  /\ pendingStart (run [ClickStart; ClickStart] initialBrowser) = 1.
Proof.
  split; [split; reflexivity|].
  pose proof (C9_one_start_request initialBrowser [] 1 eq_refl eq_refl)
    as [_ H].
  split; apply (H eq_refl).
Defined.

(** ** The resource display *)

Section Icons.
Variable value : Z.
Hypothesis value_nonneg : (0 <= value)%Z.

Lemma filled_from (k : nat) (spans : list bool) :
  length (List.filter negb
            (imap (fun i _ => (value <=? Z.of_nat (k + i))%Z) spans))
  = Nat.min (Z.to_nat value - k) (length spans).
Proof.
  revert k; induction spans as [|e spans IH]; intros k.
  - simpl. lia.
  - rewrite imap_cons. cbn [List.filter length].
    rewrite (imap_ext _ (fun i _ => (value <=? Z.of_nat (S k + i))%Z))
      by (intros i x _; simpl; do 2 f_equal; lia).
    rewrite Nat.add_0_r.
    destruct (Z.leb_spec value (Z.of_nat k)); cbn [negb length];
      rewrite IH; lia.
Qed.

Lemma filled_toggle (spans : list bool) :
  length (List.filter negb (imap (fun i _ => (value <=? Z.of_nat i)%Z) spans))
  = Nat.min (Z.to_nat value) (length spans).
Proof. rewrite <- (Nat.sub_0_r (Z.to_nat value)). apply (filled_from 0). Qed.

Lemma updated_group (group : option (list bool)) :
  filledIcons
    (option_map (imap (fun i _ => (value <=? Z.of_nat i)%Z)) group)
  = Nat.min (Z.to_nat value) (iconCount group)
  /\ iconCount (option_map (imap (fun i _ => (value <=? Z.of_nat i)%Z)) group)
     = iconCount group.
Proof.
  destruct group as [spans|]; simpl.
  - rewrite filled_toggle, length_imap. split; reflexivity.
  - split; lia.
Qed.

End Icons.

Lemma clamp_clampSpec (v : Z) : Z.min 3 (Z.max 0 v) = clampSpec v.
Proof.
  unfold clampSpec.
  destruct (Z.ltb_spec v 0); [lia|]. destruct (Z.ltb_spec 3 v); lia.
Qed.

Lemma clampSpec_range (v : Z) : (0 <= clampSpec v <= 3)%Z.
Proof.
  unfold clampSpec.
  destruct (Z.ltb_spec v 0); [lia|]. destruct (Z.ltb_spec 3 v); lia.
Qed.

(** The icon groups after [updateGameState]: every span of a group carries
    [empty] from the shown value on. *)
Lemma updateGameState_icons (s : GameState) (h : Hud) :
  health_icons (updateGameState (Some s) h)
  = option_map (imap (fun i _ => (shownHealth s <=? Z.of_nat i)%Z))
      (health_icons h)
  /\ mental_icons (updateGameState (Some s) h)
     = option_map (imap (fun i _ => (shownMental s <=? Z.of_nat i)%Z))
         (mental_icons h)
  /\ money_icons (updateGameState (Some s) h)
     = option_map (imap (fun i _ => (shownMoney s <=? Z.of_nat i)%Z))
         (money_icons h).
Proof.
  unfold shownHealth, shownMental, shownMoney, shownSpec.
  rewrite <- !clamp_clampSpec.
  destruct h as [[hi|] [mi|] [yi|] hv mv yv gl], s as [[r|] g];
    repeat split.
Qed.

(** C3: [updateGameState] leaves the display as it is when the state is
    absent. Otherwise each of health, mental and money is the field of
    [state.resources], or its default when the field is undefined (3 for
    health and mental, 0 for money), brought into the range from 0 to 3; its
    label is that number followed by [/3], and in its icon group that many
    spans are filled, out of the three a group has (out of as many as it has,
    in general). *)
Theorem C3_resource_display (st : option GameState) (h : Hud) :
  match st with
  | None => updateGameState st h = h
  | Some s =>
      ((0 <= shownHealth s <= 3)%Z /\ (0 <= shownMental s <= 3)%Z
       /\ (0 <= shownMoney s <= 3)%Z)
      /\ (health_value (updateGameState st h)
           = numberToString (shownHealth s) ++ lit "/3"
          /\ mental_value (updateGameState st h)
             = numberToString (shownMental s) ++ lit "/3"
          /\ money_value (updateGameState st h)
             = numberToString (shownMoney s) ++ lit "/3")
      /\ (filledIcons (health_icons (updateGameState st h))
           = Nat.min (Z.to_nat (shownHealth s)) (iconCount (health_icons h))
          /\ filledIcons (mental_icons (updateGameState st h))
             = Nat.min (Z.to_nat (shownMental s)) (iconCount (mental_icons h))
          /\ filledIcons (money_icons (updateGameState st h))
             = Nat.min (Z.to_nat (shownMoney s)) (iconCount (money_icons h)))
      /\ (iconCount (health_icons (updateGameState st h))
           = iconCount (health_icons h)
          /\ iconCount (mental_icons (updateGameState st h))
             = iconCount (mental_icons h)
          /\ iconCount (money_icons (updateGameState st h))
             = iconCount (money_icons h))
  end.
Proof.
  destruct st as [s|]; [|reflexivity].
  assert (Hh : (0 <= shownHealth s <= 3)%Z) by apply clampSpec_range.
  assert (Hm : (0 <= shownMental s <= 3)%Z) by apply clampSpec_range.
  assert (Hy : (0 <= shownMoney s <= 3)%Z) by apply clampSpec_range.
  split; [auto|]. split.
  - unfold shownHealth, shownMental, shownMoney, shownSpec.
    rewrite <- !clamp_clampSpec.
    destruct s as [[r|] g]; repeat split.
  - destruct (updateGameState_icons s h) as (-> & -> & ->).
    destruct (updated_group (shownHealth s) (proj1 Hh) (health_icons h))
      as [-> ->].
    destruct (updated_group (shownMental s) (proj1 Hm) (mental_icons h))
      as [-> ->].
    destruct (updated_group (shownMoney s) (proj1 Hy) (money_icons h))
      as [-> ->].
    repeat split.
Qed.

Lemma C3_resource_display_witness :
  (health_value (updateGameState (Some Run.outOfRange) (hud initialWorld))
   = lit "0/3"
   /\ mental_value (updateGameState (Some Run.outOfRange) (hud initialWorld))
      = lit "3/3"
   /\ money_value (updateGameState (Some Run.outOfRange) (hud initialWorld))
      = lit "2/3")
  /\ (filledIcons (health_icons (updateGameState (Some Run.outOfRange)
                                   (hud initialWorld))) = 0
      /\ filledIcons (mental_icons (updateGameState (Some Run.outOfRange)
                                      (hud initialWorld))) = 3
      /\ filledIcons (money_icons (updateGameState (Some Run.outOfRange)
                                     (hud initialWorld))) = 2).
Proof.
  pose proof (C3_resource_display (Some Run.outOfRange) (hud initialWorld))
    as (_ & Hlabels & Hicons & _).
  split; [exact Hlabels | exact Hicons].
Defined.

(** [updateGameState] makes the display follow the state it is given. *)
Lemma updateGameState_displays (st : option GameState) (h : Hud) :
  displayFollows st h (updateGameState st h).
Proof.
  destruct st as [s|]; [|reflexivity]. unfold displayFollows, displays.
  assert (Hh : (0 <= shownHealth s <= 3)%Z) by apply clampSpec_range.
  assert (Hm : (0 <= shownMental s <= 3)%Z) by apply clampSpec_range.
  assert (Hy : (0 <= shownMoney s <= 3)%Z) by apply clampSpec_range.
  split; [|split; [|split]].
  - unfold shownHealth, shownMental, shownMoney, shownSpec.
    rewrite <- !clamp_clampSpec.
    destruct s as [[r|] g]; repeat split.
  - destruct (updateGameState_icons s h) as (-> & -> & ->).
    destruct (updated_group (shownHealth s) (proj1 Hh) (health_icons h))
      as [-> _].
    destruct (updated_group (shownMental s) (proj1 Hm) (mental_icons h))
      as [-> _].
    destruct (updated_group (shownMoney s) (proj1 Hy) (money_icons h))
      as [-> _].
    repeat split.
  - destruct (updateGameState_icons s h) as (-> & -> & ->).
    destruct (updated_group (shownHealth s) (proj1 Hh) (health_icons h))
      as [_ ->].
    destruct (updated_group (shownMental s) (proj1 Hm) (mental_icons h))
      as [_ ->].
    destruct (updated_group (shownMoney s) (proj1 Hy) (money_icons h))
      as [_ ->].
    repeat split.
  - reflexivity.
Qed.

(** ** The result entry *)

Lemma trim_wholeLines (s : jsstring) :
  wholeLines s -> trim s ++ Lit.newline = s.
Proof.
  intros (c & mid & d & -> & Hc & Hd). unfold trim, trimEnd.
  cbn [trimStart]. rewrite Hc.
  replace (c :: mid ++ [d; 10%N]) with ((c :: mid) ++ [d; 10%N]) by reflexivity.
  rewrite rev_app_distr.
  replace (rev [d; 10%N]) with [10%N; d] by reflexivity.
  cbn [app trimStart].
  replace (isWhiteSpace 10) with true by reflexivity. rewrite Hd.
  replace (d :: rev (c :: mid)) with (rev ((c :: mid) ++ [d]))
    by (rewrite rev_app_distr; reflexivity).
  rewrite rev_involutive, <- app_assoc. reflexivity.
Qed.

Lemma endsSolid_app (s t : jsstring) : endsSolid t -> endsSolid (s ++ t).
Proof.
  intros (pre & d & -> & Hd). exists (s ++ pre), d. rewrite app_assoc. auto.
Qed.

Lemma digits_solid (d : Decimal.uint) : Forall solid (digits d).
Proof. induction d; simpl; constructor; auto; reflexivity. Qed.

Lemma endsSolid_last (s : jsstring) :
  s <> [] -> Forall solid s -> endsSolid s.
Proof.
  intros Hne Hall. destruct (exists_last Hne) as (pre & d & ->).
  exists pre, d. split; [reflexivity|].
  apply Forall_app in Hall as [_ Hd]. now inversion Hd.
Qed.

Lemma numberToString_endsSolid (z : Z) : endsSolid (numberToString z).
Proof.
  assert (Hpos : forall p, endsSolid (digits (Pos.to_uint p))).
  { intros p. apply endsSolid_last; [|apply digits_solid].
    pose proof (Unsigned.to_uint_nonnil p).
    destruct (Pos.to_uint p); simpl; congruence. }
  unfold numberToString. destruct z as [|p|p]; simpl.
  - exists [], 48%N. split; reflexivity.
  - apply Hpos.
  - apply (endsSolid_app [45%N]), Hpos.
Qed.

Lemma join_endsSolid (sep : jsstring) (entries : list jsstring) :
  entries <> [] -> Forall endsSolid entries -> endsSolid (join sep entries).
Proof.
  induction entries as [|x [|y l] IH]; intros Hne Hall; [contradiction| |].
  - now inversion Hall.
  - change (join sep (x :: y :: l)) with (x ++ sep ++ join sep (y :: l)).
    do 2 apply endsSolid_app. apply IH; [discriminate | now inversion Hall].
Qed.

Lemma deltaSpec_endsSolid (label : jsstring) (v : option Z) :
  Forall endsSolid (deltaSpec label v).
Proof.
  unfold deltaSpec. destruct v as [z|]; [|constructor].
  destruct (0 <? z)%Z; [|destruct (z <? 0)%Z]; repeat constructor;
    repeat apply endsSolid_app; apply numberToString_endsSolid.
Qed.

Lemma gadgetSpec_endsSolid (g : GadgetChange) : Forall endsSolid (gadgetSpec g).
Proof.
  unfold gadgetSpec. repeat case_decide; repeat constructor;
    repeat apply endsSolid_app; exists [], 41%N; split; reflexivity.
Qed.

Lemma lineSpec_wholeLines (c : N) (heading : jsstring)
    (entries : list jsstring) :
  solid c -> Forall endsSolid entries ->
  lineSpec (c :: heading) entries = []
  \/ wholeLines (lineSpec (c :: heading) entries).
Proof.
  intros Hc Hall. destruct entries as [|x l]; [left; reflexivity|right].
  destruct (join_endsSolid (lit ", ") (x :: l)) as (pre & d & Hj & Hd);
    [discriminate | exact Hall |].
  exists c, (heading ++ pre), d. unfold lineSpec. rewrite Hj.
  simpl. rewrite <- !app_assoc. auto.
Qed.

Lemma wholeLines_app (a b : jsstring) :
  wholeLines a -> wholeLines b -> wholeLines (a ++ b).
Proof.
  intros (c & m & d & -> & Hc & Hd) (c' & m' & d' & -> & Hc' & Hd').
  exists c, (m ++ [d; 10%N] ++ c' :: m'), d'. simpl.
  rewrite <- !app_assoc. auto.
Qed.

Lemma resourceLine_wholeLines (r : option Resources) :
  lineSpec Lit.resourceChange (deltasSpec r) = []
  \/ wholeLines (lineSpec Lit.resourceChange (deltasSpec r)).
Proof.
  apply (lineSpec_wholeLines 51088 [50896; 32; 48320; 54868; 58; 32]%N);
    [reflexivity|].
  unfold deltasSpec. destruct r; [|constructor].
  repeat apply Forall_app_2; apply deltaSpec_endsSolid.
Qed.

Lemma gadgetLine_wholeLines (gs : option (list GadgetChange)) :
  lineSpec Lit.gadgetChange (gadgetsSpec gs) = []
  \/ wholeLines (lineSpec Lit.gadgetChange (gadgetsSpec gs)).
Proof.
  apply (lineSpec_wholeLines 44032 [51247; 32; 48320; 54868; 58; 32]%N);
    [reflexivity|].
  unfold gadgetsSpec. destruct gs as [gs|]; [|constructor].
  induction gs as [|g gs IH]; simpl; [constructor|].
  apply Forall_app_2; [apply gadgetSpec_endsSolid | exact IH].
Qed.

(** The composite text is empty or made of whole lines. *)
Lemma compositeSpec_wholeLines (r : ChoiceResult) :
  compositeSpec r = [] \/ wholeLines (compositeSpec r).
Proof.
  unfold compositeSpec.
  destruct (resourceLine_wholeLines (result_resources r)) as [E1|W1],
    (gadgetLine_wholeLines (result_gadgets r)) as [E2|W2].
  - left. rewrite E1, E2. reflexivity.
  - right. rewrite E1. exact W2.
  - right. rewrite E2, app_nil_r. exact W1.
  - right. apply wholeLines_app; assumption.
Qed.

Lemma resultEntries_cases (data : ChoiceData) (r : ChoiceResult) :
  result data = Some r ->
  (compositeSpec r = [] /\ resultEntries data = [])
  \/ (exists text, compositeSpec r = text ++ Lit.newline
                  /\ resultEntries data = [MessageDiv result_ text]).
Proof.
  intros Hr. unfold resultEntries. rewrite Hr.
  destruct (compositeSpec_wholeLines r) as [E|W].
  - left. rewrite E. split; reflexivity.
  - right. exists (trim (compositeSpec r)).
    rewrite (trim_wholeLines _ W). split; [reflexivity|].
    destruct W as (c & mid & d & -> & _). reflexivity.
Qed.

Lemma countType_app (t : messageType) (l1 l2 : list ChatNode) :
  countType t (l1 ++ l2) = countType t l1 + countType t l2.
Proof.
  induction l1 as [|[t' text|wrap] l1 IH]; simpl; rewrite ?IH; lia.
Qed.

(** The transcript after a response that reports no error. *)
Lemma sendChoice_resume_chat (data : ChoiceData) (w : World) :
  failureText (Body data) = None ->
  chatMessages (page (sendChoice_resume (Body data) w))
  = chatMessages (page w) ++ storyEntries data ++ resultEntries data
    ++ encounterEntries data w.
Proof.
  intros Hok. rewrite (sendChoice_resume_ok data w Hok). cbv zeta.
  unfold encounterEntries. destruct (continues data).
  - destruct (messages data) as [[|m ms]|]; simpl;
      rewrite <- ?app_assoc, ?app_nil_r; reflexivity.
  - destruct (game_over data) as [[|]|]; simpl; rewrite ?app_nil_r; reflexivity.
Qed.

(** C4: for a response that reports no error and carries a result, the text
    the source builds is the composite of at most two lines, the resource
    line (the non-zero deltas, a positive one with a plus sign) and the
    gadget line (acquire with [+amount], lose with [-amount], other actions
    dropped). The transcript gains, between the story entry and the
    container of the next encounter, no result entry when the composite is
    empty and otherwise exactly one, whose text is the composite without its
    final line break; so the number of result entries grows by at most
    one. *)
Theorem C4_one_result_entry (data : ChoiceData) (r : ChoiceResult)
    (w : World) :
  failureText (Body data) = None ->
  result data = Some r ->
  resultText r
  = lineSpec Lit.resourceChange (deltasSpec (result_resources r))
    ++ lineSpec Lit.gadgetChange (gadgetsSpec (result_gadgets r))
  /\ chatMessages (page (sendChoice_resume (Body data) w))
     = chatMessages (page w) ++ storyEntries data ++ resultEntries data
       ++ encounterEntries data w
  /\ ((resultText r = [] /\ resultEntries data = [])
      \/ (exists text, resultText r = text ++ Lit.newline
                      /\ resultEntries data = [MessageDiv result_ text]))
  /\ countType result_ (chatMessages (page (sendChoice_resume (Body data) w)))
     = countType result_ (chatMessages (page w)) + length (resultEntries data)
  /\ length (resultEntries data) <= 1.
Proof.
  intros Hok Hr.
  split; [apply resultText_compositeSpec|].
  split; [apply sendChoice_resume_chat, Hok|].
  rewrite resultText_compositeSpec.
  split; [apply resultEntries_cases, Hr|].
  rewrite (sendChoice_resume_chat data w Hok), !countType_app.
  assert (Hstory : countType result_ (storyEntries data) = 0).
  { unfold storyEntries.
    destruct (choice_mapped data) as [[[[|? ?]|] [[|? ?]|]]|]; reflexivity. }
  assert (Hnext : countType result_ (encounterEntries data w) = 0).
  { unfold encounterEntries.
    destruct (continues data), (messages data) as [[|? ?]|]; reflexivity. }
  rewrite Hstory, Hnext.
  destruct (resultEntries_cases data r Hr) as [[_ ->]|(text & _ & ->)];
    simpl; lia.
Qed.

Lemma C4_one_result_entry_witness :
  (failureText (Body Run.hurt) = None
   /\ result Run.hurt
      = Some (mkChoiceResult (Some (mkResources (Some (-1)%Z) None (Some 0%Z)))
                None))
  /\ chatMessages (page (sendChoice_resume (Body Run.hurt)
                           (world Run.choiceInFlight)))
     = chatMessages (page (world Run.choiceInFlight))
       ++ [MessageDiv result_
             (Lit.resourceChange ++ Lit.healthLabel ++ lit "-1")].
Proof.
  split; [split; reflexivity|].
  apply (C4_one_result_entry Run.hurt
           (mkChoiceResult
              (Some (mkResources (Some (-1)%Z) None (Some 0%Z))) None)
           (world Run.choiceInFlight) eq_refl eq_refl).
Defined.

(** ** The staggered reveal of an encounter *)

Lemma encounterTimeout_effect (wrap : nat) (m : Message) (w : World) :
  wraps (encounterTimeout wrap m w)
  = alter (fun c => c ++ itemNodes m) wrap (wraps w)
  /\ timers (encounterTimeout wrap m w) = timers w
  /\ clock (encounterTimeout wrap m w) = clock w
  /\ gameState (encounterTimeout wrap m w) = gameState w
  /\ chatMessages (page (encounterTimeout wrap m w)) = chatMessages (page w).
Proof.
  assert (Hid : forall l : list (list WrapChild),
             l = alter (fun c => c ++ []) wrap l).
  { intros l. symmetry. apply list_alter_id. intros x. apply app_nil_r. }
  unfold encounterTimeout, itemNodes.
  destruct (type m) as [t|]; [rewrite strictEq_decide|].
  - case_bool_decide as Ht; [subst t; rewrite decide_True by reflexivity
                            | rewrite decide_False by congruence].
    + destruct (url m) as [[|c s]|]; simpl; auto using Hid.
    + destruct (trim (orStr (content m) [])); simpl; auto using Hid.
  - rewrite decide_False by discriminate.
    destruct (trim (orStr (content m) [])); simpl; auto using Hid.
Qed.

Lemma pickTimer_In (ts : list Timer) (t : Timer) (rest : list Timer) :
  pickTimer ts = Some (t, rest) -> In t ts.
Proof.
  revert t rest; induction ts as [|t0 ts IH]; intros t rest; [discriminate|].
  simpl. destruct (pickTimer ts) as [[t' rest']|].
  - destruct (due t' <? due t0); intros [= <- <-];
      [right; eapply IH; eauto | now left].
  - intros [= <- <-]. now left.
Qed.

Lemma pickTimer_head (t : Timer) (ts : list Timer) :
  Forall (fun t' => due t <= due t') ts -> pickTimer (t :: ts) = Some (t, ts).
Proof.
  intros Hall. simpl. destruct (pickTimer ts) as [[t' rest]|] eqn:E.
  - apply pickTimer_In in E. rewrite Forall_forall in Hall.
    pose proof (Hall t' (proj2 (list_elem_of_In _ _) E)) as Hle.
    destruct (Nat.ltb_spec (due t') (due t)); [lia | reflexivity].
  - destruct ts; [reflexivity|]. simpl in E.
    destruct (pickTimer ts) as [[? ?]|]; [destruct (_ <? _)|]; discriminate.
Qed.

Lemma staggered_lookup t0 wrap items i m :
  items !! i = Some m ->
  staggered t0 wrap items !! i = Some (mkTimer (t0 + i * 500) wrap m).
Proof.
  intros H. unfold staggered. rewrite list_lookup_imap, H. reflexivity.
Qed.

Lemma staggered_later t0 wrap items i :
  Forall (fun t' => t0 + i * 500 <= due t')
    (drop (S i) (staggered t0 wrap items)).
Proof.
  apply Forall_lookup_2. intros j t. rewrite lookup_drop. unfold staggered.
  rewrite list_lookup_imap. destruct (items !! (S i + j)); [|discriminate].
  intros [= <-]. simpl. lia.
Qed.

Lemma addEncounterBubbles_effect (items : list Message) (w : World) :
  items <> [] ->
  timers (addEncounterBubbles items w)
  = timers w ++ staggered (clock w) (length (wraps w)) items
  /\ wraps (addEncounterBubbles items w) = wraps w ++ [[]]
  /\ clock (addEncounterBubbles items w) = clock w
  /\ gameState (addEncounterBubbles items w) = gameState w
  /\ chatMessages (page (addEncounterBubbles items w))
     = chatMessages (page w) ++ [EncounterGroup (length (wraps w))].
Proof. destruct items; [contradiction|]. repeat split. Qed.

Lemma reveal_steps (items : list Message) (w : World) (k : nat) :
  items <> [] -> timers w = [] -> k <= length items ->
  timers (fireTimers k (addEncounterBubbles items w))
  = drop k (staggered (clock w) (length (wraps w)) items)
  /\ wraps (fireTimers k (addEncounterBubbles items w))
     = wraps w ++ [concat (map itemNodes (take k items))]
  /\ clock (fireTimers k (addEncounterBubbles items w))
     = match k with 0 => clock w | S j => clock w + j * 500 end.
Proof.
  intros Hne Hnone. induction k as [|k IH]; intros Hk.
  - cbn [fireTimers].
    destruct (addEncounterBubbles_effect items w Hne) as (-> & -> & -> & _).
    rewrite Hnone. repeat split.
  - destruct IH as (Hts & Hws & Hck); [lia|].
    destruct (lookup_lt_is_Some_2 items k) as [m Hm]; [lia|].
    pose proof (staggered_lookup (clock w) (length (wraps w)) items k m Hm)
      as Ht.
    rewrite (drop_S _ _ _ Ht) in Hts.
    cbn [fireTimers]. 
    set (wk := fireTimers k (addEncounterBubbles items w)) in *.
    unfold fireTimer. rewrite Hts, pickTimer_head by apply staggered_later.
    cbn [due timer_wrap timer_item].
    destruct (encounterTimeout_effect (length (wraps w)) m
                (upd_clock (fun c => Nat.max c (clock w + k * 500))
                   (upd_timers
                      (fun _ =>
                         drop (S k)
                           (staggered (clock w) (length (wraps w)) items))
                      wk))) as (-> & -> & -> & _).
    cbn [wraps timers clock upd_clock upd_timers]. rewrite Hws, Hck.
    split; [reflexivity|]. split.
    + rewrite <- (Nat.add_0_r (length (wraps w))) at 1.
      rewrite alter_app_r. cbn [alter list_alter].
      rewrite (take_S_r _ _ _ Hm), map_app, concat_app. simpl.
      rewrite app_nil_r. reflexivity.
    + destruct k; lia.
Qed.

(** C7: for a non-empty list, [addEncounterBubbles] registers one timer per
    item, after the pending ones and in the order of the list; the timer of
    the item at index [i] is due [i * 500] after the time of the call, so
    due times ascend with the index. When nothing else is pending, the timers
    run in that order: after [k] of them the container holds the nodes of the
    first [k] items and the clock stands at the due time of the last one run,
    so the whole reveal ends [(N - 1) * 500] after the call. *)
Theorem C7_staggered_reveal (items : list Message) (w : World) :
  items <> [] ->
  (exists new : list Timer,
      timers (addEncounterBubbles items w) = timers w ++ new
      /\ length new = length items
      /\ (forall i m, items !! i = Some m ->
            new !! i = Some (mkTimer (clock w + i * 500) (length (wraps w)) m))
      /\ (forall i j ti tj,
            i <= j -> new !! i = Some ti -> new !! j = Some tj ->
            due ti <= due tj))
  /\ (timers w = [] ->
      (forall k, k <= length items ->
         wraps (fireTimers k (addEncounterBubbles items w))
         = wraps w ++ [concat (map itemNodes (take k items))]
         /\ clock (fireTimers k (addEncounterBubbles items w))
            = match k with 0 => clock w | S j => clock w + j * 500 end)
      /\ clock (fireTimers (length items) (addEncounterBubbles items w))
         = clock w + (length items - 1) * 500
      /\ timers (fireTimers (length items) (addEncounterBubbles items w)) = []).
Proof.
  intros Hne. split.
  - exists (staggered (clock w) (length (wraps w)) items).
    destruct (addEncounterBubbles_effect items w Hne) as (-> & _).
    split; [reflexivity|]. split; [apply length_imap|]. split.
    + intros i m. apply staggered_lookup.
    + intros i j ti tj Hij. unfold staggered. rewrite !list_lookup_imap.
      destruct (items !! i), (items !! j); try discriminate.
      intros [= <-] [= <-]. simpl. nia.
  - intros Hnone. split; [|split].
    + intros k Hk.
      destruct (reveal_steps items w k Hne Hnone Hk) as (_ & Hws & Hck).
      split; assumption.
    + destruct (reveal_steps items w (length items) Hne Hnone (le_n _))
        as (_ & _ & ->).
      destruct items; [contradiction|]. simpl. rewrite Nat.sub_0_r. reflexivity.
    + destruct (reveal_steps items w (length items) Hne Hnone (le_n _))
        as (-> & _).
      apply drop_ge. unfold staggered. rewrite length_imap. reflexivity.
Qed.

Lemma C7_staggered_reveal_witness :
  Run.threeItems <> []
  /\ map due (timers (addEncounterBubbles Run.threeItems initialWorld))
     = [0; 500; 1000]
  /\ clock (fireTimers 3 (addEncounterBubbles Run.threeItems initialWorld))
     = 1000.
Proof.
  split; [discriminate|].
  destruct (C7_staggered_reveal Run.threeItems initialWorld) as [_ Hrun];
    [discriminate|].
  split; [reflexivity|]. apply (Hrun eq_refl).
Defined.

(** C8: the callback of an item appends to its container the nodes the item
    stands for, at most one: none for an image whose url is absent or empty,
    one image node with the url and the alt text (empty when absent)
    otherwise; none for any other item whose content is absent or empty
    after trimming, one bubble with the trimmed text otherwise. Where no
    node is appended the callback changes nothing. Once all timers of a list
    have run, its container holds the nodes of its items in order. *)
Theorem C8_item_nodes (wrap : nat) (m : Message) (w : World)
    (children : list WrapChild) :
  wraps w !! wrap = Some children ->
  length (itemNodes m) <= 1
  /\ wraps (encounterTimeout wrap m w) !! wrap = Some (children ++ itemNodes m)
  /\ (type m = Some (lit "image") -> truthyStr (url m) = false ->
      itemNodes m = [] /\ encounterTimeout wrap m w = w)
  /\ (type m = Some (lit "image") -> forall c s, url m = Some (c :: s) ->
      itemNodes m = [EncounterImage (c :: s) (orStr (alt m) [])])
  /\ (type m <> Some (lit "image") -> trim (orStr (content m) []) = [] ->
      itemNodes m = [] /\ encounterTimeout wrap m w = w)
  /\ (type m <> Some (lit "image") ->
      forall c s, trim (orStr (content m) []) = c :: s ->
      itemNodes m = [EncounterBubble (c :: s)])
  /\ (forall (items : list Message) (w0 : World),
      items <> [] -> timers w0 = [] ->
      wraps (fireTimers (length items) (addEncounterBubbles items w0))
      = wraps w0 ++ [concat (map itemNodes items)]).
Proof.
  intros Hwrap.
  assert (Himage : forall t, type m = Some t ->
            strictEq t (lit "image")
            = bool_decide (type m = Some (lit "image"))).
  { intros t Ht. rewrite strictEq_decide, Ht.
    apply bool_decide_ext. split; congruence. }
  split; [|split; [|split; [|split; [|split; [|split]]]]].
  - unfold itemNodes. case_decide.
    + destruct (url m) as [[|c s]|]; simpl; lia.
    + destruct (trim (orStr (content m) [])); simpl; lia.
  - destruct (encounterTimeout_effect wrap m w) as (-> & _).
    rewrite list_lookup_alter_eq, Hwrap. reflexivity.
  - intros Ht Hurl. unfold itemNodes, encounterTimeout.
    rewrite Ht, decide_True by reflexivity.
    replace (strictEq (lit "image") (lit "image")) with true by reflexivity.
    destruct (url m) as [[|c s]|]; try discriminate; split; reflexivity.
  - intros Ht c s Hurl. unfold itemNodes.
    rewrite decide_True, Hurl by exact Ht. reflexivity.
  - intros Ht Htext. unfold itemNodes, encounterTimeout.
    rewrite decide_False by exact Ht. rewrite Htext.
    destruct (type m) as [t|]; [|split; reflexivity].
    rewrite (Himage t eq_refl), bool_decide_eq_false_2 by exact Ht.
    split; reflexivity.
  - intros Ht c s Htext. unfold itemNodes.
    rewrite decide_False, Htext by exact Ht. reflexivity.
  - intros items w0 Hne Hnone.
    destruct (reveal_steps items w0 (length items) Hne Hnone (le_n _))
      as (_ & -> & _).
    rewrite firstn_all. reflexivity.
Qed.

Lemma C8_item_nodes_witness :
  wraps (addEncounterBubbles Run.threeItems initialWorld) !! 0 = Some []
  /\ wraps (fireTimers 3 (addEncounterBubbles Run.threeItems initialWorld))
     = [[EncounterBubble (lit "first"); EncounterBubble (lit "second")]].
Proof.
  split; [reflexivity|].
  pose proof (C8_item_nodes 0 (mkMessage None None None None)
                (addEncounterBubbles Run.threeItems initialWorld) [] eq_refl)
    as (_ & _ & _ & _ & _ & _ & Hall).
  apply (Hall Run.threeItems initialWorld); [discriminate | reflexivity].
Defined.

(** * Further properties of the handlers *)

(** ** Blank input *)

Lemma trimStart_nil (s : jsstring) :
  trimStart s = [] <-> Forall (fun c => isWhiteSpace c = true) s.
Proof.
  induction s as [|c s IH]; simpl; [split; auto|].
  destruct (isWhiteSpace c) eqn:Hc.
  - rewrite IH. split; [auto | now inversion 1].
  - split; [discriminate | inversion 1; congruence].
Qed.

Lemma trimStart_head (s : jsstring) (c : N) (s' : jsstring) :
  trimStart s = c :: s' -> isWhiteSpace c = false.
Proof.
  induction s as [|x s IH]; simpl; [discriminate|].
  destruct (isWhiteSpace x) eqn:Hx; [exact IH | now intros [= <- <-]].
Qed.

(** Nothing is left of a text after trimming exactly when all its
    characters are whitespace. *)
Lemma trim_nil (s : jsstring) :
  trim s = [] <-> Forall (fun c => isWhiteSpace c = true) s.
Proof.
  unfold trim, trimEnd. split.
  - intros H. apply trimStart_nil.
    destruct (trimStart s) as [|c s'] eqn:E; [reflexivity|].
    apply (f_equal (@rev N)) in H.
    rewrite (rev_involutive (trimStart (rev (c :: s')))) in H.
    change (rev []) with (@nil N) in H. apply trimStart_nil in H.
    rewrite Forall_forall in H.
    assert (Hc : isWhiteSpace c = true).
    { apply H, list_elem_of_In. apply (proj1 (in_rev (c :: s') c)). now left. }
    apply trimStart_head in E. congruence.
  - intros H. apply trimStart_nil in H. rewrite H. reflexivity.
Qed.

Lemma blank_or_solid (s : jsstring) :
  Forall (fun c => isWhiteSpace c = true) s \/ Exists solid s.
Proof.
  induction s as [|c s [IH|IH]]; [left; constructor| |].
  - destruct (isWhiteSpace c) eqn:Hc;
      [left; constructor; assumption | right; now constructor].
  - right. now constructor 2.
Qed.

Lemma trim_solid (s : jsstring) : trim s <> [] <-> Exists solid s.
Proof.
  rewrite trim_nil. split.
  - intros H. destruct (blank_or_solid s) as [Hb|Hs]; [contradiction|exact Hs].
  - intros Hs Hb. rewrite Exists_exists in Hs. destruct Hs as (c & Hin & Hc).
    rewrite Forall_forall in Hb. unfold solid in Hc.
    rewrite (Hb c Hin) in Hc. discriminate.
Qed.

(** ** When a choice is sent *)

(** X1: [sendChoice] sends a request exactly when the input has a character
    that is not whitespace and the session id is a non-empty string; the
    request then goes to the choice endpoint of that session with the
    trimmed input. With such an input and no session id it only raises the
    alert that asks to start the game: nothing is sent, and the page and the
    session record stay as they are. *)
Theorem sendChoice_sends_iff (w : World) :
  (forall req,
     snd (sendChoice w) = Some req
     <-> (Exists solid (chatInput_value (page w))
          /\ exists c s,
               sessionId (gameState w) = Some (c :: s)
               /\ req = ChoiceRequest (choiceUrl (c :: s))
                          (trim (chatInput_value (page w)))))
  /\ (Exists solid (chatInput_value (page w)) ->
      truthyStr (sessionId (gameState w)) = false ->
      snd (sendChoice w) = None
      /\ alerts (fst (sendChoice w)) = alerts w ++ [Lit.startFirst]
      /\ page (fst (sendChoice w)) = page w
      /\ gameState (fst (sendChoice w)) = gameState w).
Proof.
  split.
  - intros req. unfold sendChoice.
    destruct (trim (chatInput_value (page w))) as [|x t] eqn:Ht;
      cbn [nonEmpty negb].
    + split; [discriminate|]. intros [Hs _].
      apply trim_solid in Hs. contradiction.
    + assert (Hs : Exists solid (chatInput_value (page w))).
      { apply trim_solid. rewrite Ht. discriminate. }
      destruct (sessionId (gameState w)) as [[|c s]|]; cbn [snd].
      * split; [discriminate|]. intros (_ & c & s & [=] & _).
      * split.
        -- intros [= <-]. split; [exact Hs|]. exists c, s. split; reflexivity.
        -- intros (_ & c' & s' & [= <- <-] & ->). reflexivity.
      * split; [discriminate|]. intros (_ & c & s & [=] & _).
  - intros Hs Hnone. apply trim_solid in Hs. unfold sendChoice.
    destruct (trim (chatInput_value (page w))) as [|x t]; [contradiction|].
    cbn [nonEmpty negb].
    destruct (sessionId (gameState w)) as [[|c s]|]; try discriminate;
      repeat split.
Qed.

Lemma sendChoice_sends_witness :
  snd (sendChoice (world More.typed))
  = Some (ChoiceRequest (lit "/api/game/s1/choice") (lit "go"))
  /\ snd (sendChoice (world More.typedEarly)) = None
  /\ alerts (fst (sendChoice (world More.typedEarly))) = [Lit.startFirst].
Proof.
  split.
  - apply (proj1 (sendChoice_sends_iff (world More.typed))). split.
    + apply Exists_cons_tl, Exists_cons_hd. reflexivity.
    + exists 115%N, [49%N]. split; reflexivity.
  - destruct (proj2 (sendChoice_sends_iff (world More.typedEarly)))
      as (Hnone & Halert & _).
    + apply Exists_cons_hd. reflexivity.
    + reflexivity.
    + split; [exact Hnone | exact Halert].
Defined.

(** ** One submission at a time *)

Lemma countChoiceRequests_app (l1 l2 : list Request) :
  countChoiceRequests (l1 ++ l2)
  = countChoiceRequests l1 + countChoiceRequests l2.
Proof. induction l1 as [|[|u i] l1 IH]; simpl; rewrite ?IH; reflexivity. Qed.

Lemma addEncounterBubbles_value (items : list Message) (w : World) :
  chatInput_value (page (addEncounterBubbles items w))
  = chatInput_value (page w).
Proof. destruct items; reflexivity. Qed.

Lemma startBtn_resume_value (o : outcome StartData) (w : World) :
  chatInput_value (page (startBtn_resume o w)) = chatInput_value (page w).
Proof.
  destruct o as [| |data]; try reflexivity. unfold startBtn_resume.
  destruct (start_error data) as [[|c s]|]; try reflexivity;
    rewrite addEncounterBubbles_value; reflexivity.
Qed.

Lemma sendChoice_resume_value (o : outcome ChoiceData) (w : World) :
  chatInput_value (page (sendChoice_resume o w)) = chatInput_value (page w).
Proof.
  destruct o as [| |data]; try reflexivity.
  destruct (failureText (Body data)) as [msg|] eqn:Hf.
  - unfold sendChoice_resume. simpl in Hf.
    destruct (error data) as [[|c s]|]; try discriminate. reflexivity.
  - rewrite (sendChoice_resume_ok data w Hf). cbv zeta.
    destruct (continues data).
    + destruct (messagesOrEmpty (messages data)); reflexivity.
    + destruct (game_over data) as [[|]|]; reflexivity.
Qed.

Lemma fireTimer_value (w : World) :
  chatInput_value (page (fireTimer w)) = chatInput_value (page w).
Proof.
  unfold fireTimer. destruct (pickTimer (timers w)) as [[t rest]|];
    [|reflexivity].
  unfold encounterTimeout. repeat case_match; reflexivity.
Qed.

Lemma sendChoice_sentOnce (n : nat) (b : Browser) :
  sentOnce n b -> sentOnce n (issue b (sendChoice (world b))).
Proof.
  unfold sentOnce, issue. intros [H|[H Hv]].
  - unfold sendChoice. destruct (negb _).
    + left. simpl. rewrite app_nil_r. exact H.
    + destruct (sessionId (gameState (world b))) as [[|c s]|]; simpl.
      * left. rewrite app_nil_r. exact H.
      * right. rewrite countChoiceRequests_app, H. simpl.
        split; [lia|reflexivity].
      * left. rewrite app_nil_r. exact H.
  - right. unfold sendChoice. rewrite Hv. simpl. rewrite app_nil_r. auto.
Qed.

Lemma step_keeps_sentOnce (n : nat) (e : Event) (b : Browser) :
  isTypeInput e = false -> sentOnce n b -> sentOnce n (step e b).
Proof.
  intros He H. destruct e; try discriminate; cbn [step].
  - unfold sentOnce, issue, startBtn_click in *.
    destruct (startBtn_disabled (page (world b))); simpl;
      rewrite ?countChoiceRequests_app, ?app_nil_r; simpl;
      rewrite ?Nat.add_0_r; exact H.
  - exact H.
  - apply sendChoice_sentOnce, H.
  - unfold chatInput_keypress. destruct (strictEq _ _).
    + apply sendChoice_sentOnce, H.
    + unfold sentOnce, issue in *. simpl. rewrite app_nil_r. exact H.
  - destruct (pendingStart b); [exact H|]. unfold sentOnce in *. simpl.
    rewrite startBtn_resume_value. exact H.
  - destruct (pendingChoice b); [exact H|]. unfold sentOnce in *. simpl.
    rewrite sendChoice_resume_value. exact H.
  - unfold sentOnce in *. simpl. rewrite fireTimer_value. exact H.
Qed.

(** X2: [sendChoice] empties the input field in the step that sends the
    request, so until the player types again every further click on the
    send button and every further Enter finds nothing to send: over any
    sequence of events in which nothing is typed, at most one choice request
    is sent, whatever responses and timers arrive in between. *)
Theorem one_choice_per_typing (b : Browser) (es : list Event) :
  forallb (fun e => negb (isTypeInput e)) es = true ->
  countChoiceRequests (sent (run es b)) <= countChoiceRequests (sent b) + 1.
Proof.
  intros Hes.
  assert (H : sentOnce (countChoiceRequests (sent b)) (run es b)).
  { assert (H0 : sentOnce (countChoiceRequests (sent b)) b)
      by (left; reflexivity).
    revert H0. generalize (countChoiceRequests (sent b)) as n.
    revert b. induction es as [|e es IH]; intros b n H0; [exact H0|].
    simpl in Hes. apply andb_true_iff in Hes as [He Hes].
    apply negb_true_iff in He.
    apply (IH Hes (step e b)), step_keeps_sentOnce; assumption. }
  destruct H as [->|[-> _]]; lia.
Qed.

Lemma one_choice_per_typing_witness :
  countChoiceRequests
    (sent (run [ClickSend; ClickSend; KeyPress (lit "Enter");
                ChoiceResponse (Body More.continued); ClickSend]
             More.typed))
  <= 1.
Proof.
  apply (one_choice_per_typing More.typed
           [ClickSend; ClickSend; KeyPress (lit "Enter");
            ChoiceResponse (Body More.continued); ClickSend]).
  reflexivity.
Defined.

(** ** Starting, failing and retrying *)

(** X3: a start that fails, by an error field in the response or by a
    rejected request or body, raises one alert with the error (the generic
    text for a rejection), enables the start button again and changes
    nothing else: the session record, the views, the transcript, the
    resource display and the timers are as before, so the record is still
    the one from before the click and the next click sends a new request. *)
Theorem failed_start_can_retry (o : outcome StartData) (w0 w : World)
    (msg : jsstring) :
  startFailureText o = Some msg ->
  startBtn_disabled (page (startBtn_resume o w)) = false
  /\ alerts (startBtn_resume o w) = alerts w ++ [msg]
  /\ gameState (startBtn_resume o w) = gameState w
  /\ chatMessages (page (startBtn_resume o w)) = chatMessages (page w)
  /\ welcomeScreen (page (startBtn_resume o w)) = welcomeScreen (page w)
  /\ gameScreen (page (startBtn_resume o w)) = gameScreen (page w)
  /\ hud (startBtn_resume o w) = hud w
  /\ timers (startBtn_resume o w) = timers w
  /\ snd (startBtn_click (startBtn_resume o w)) = Some StartRequest
  /\ gameState (startBtn_resume o (fst (startBtn_click w0))) = gameState w0.
Proof.
  intros Hfail.
  assert (Hw : forall w', startBtn_resume o w'
                 = upd_page (set_startBtn_disabled false)
                     (upd_alerts (fun a => a ++ [msg])
                        (match o with
                         | Body _ => w'
                         | _ =>
                             upd_console
                               (fun l => l ++ [Lit.startFailedLog]) w'
                         end))).
  { intros w'. destruct o as [| |data]; simpl in Hfail.
    - injection Hfail as <-. reflexivity.
    - injection Hfail as <-. reflexivity.
    - unfold startBtn_resume.
      destruct (start_error data) as [[|c s]|]; try discriminate.
      injection Hfail as <-. reflexivity. }
  rewrite !Hw. destruct o; repeat split;
    unfold startBtn_click; destruct (startBtn_disabled (page w0)); reflexivity.
Qed.

Lemma failed_start_witness :
  startFailureText (Body More.startRefused) = Some (lit "server busy")
  /\ alerts (startBtn_resume (Body More.startRefused)
               (fst (startBtn_click initialWorld)))
     = [lit "server busy"]
  /\ snd (startBtn_click
            (startBtn_resume (Body More.startRefused)
               (fst (startBtn_click initialWorld))))
     = Some StartRequest.
Proof.
  split; [reflexivity|].
  pose proof (failed_start_can_retry (Body More.startRefused) initialWorld
                (fst (startBtn_click initialWorld)) (lit "server busy") eq_refl)
    as (_ & Halert & _ & _ & _ & _ & _ & _ & Hretry & _).
  split; [exact Halert | exact Hretry].
Defined.

Lemma addEncounterBubbles_rest (items : list Message) (w : World) :
  hud (addEncounterBubbles items w) = hud w
  /\ alerts (addEncounterBubbles items w) = alerts w
  /\ console (addEncounterBubbles items w) = console w
  /\ gameState (addEncounterBubbles items w) = gameState w
  /\ clock (addEncounterBubbles items w) = clock w
  /\ welcomeScreen (page (addEncounterBubbles items w)) = welcomeScreen (page w)
  /\ gameScreen (page (addEncounterBubbles items w)) = gameScreen (page w)
  /\ gameOverScreen (page (addEncounterBubbles items w))
     = gameOverScreen (page w).
Proof. destruct items; repeat split. Qed.

(** X4: a start from the enabled button whose response reports no error
    takes the session record from the response as it is, hides the welcome
    view and shows the game view, sets the resource display from the state
    of the response, and leaves in the transcript, which the click emptied,
    the one container of the first encounter (nothing when there are no
    messages), with one timer per message. It raises no alert and leaves the
    start button disabled. *)
Theorem successful_start (data : StartData) (w : World) :
  startBtn_disabled (page w) = false ->
  startFailureText (Body data) = None ->
  gameState (startBtn_resume (Body data) (fst (startBtn_click w)))
  = mkSession (session_id data) (encounter data) (start_state data)
  /\ welcomeScreen (page (startBtn_resume (Body data) (fst (startBtn_click w))))
     = DisplayNone
  /\ gameScreen (page (startBtn_resume (Body data) (fst (startBtn_click w))))
     = DisplayBlock
  /\ hud (startBtn_resume (Body data) (fst (startBtn_click w)))
     = updateGameState (start_state data) (hud w)
  /\ displayFollows (start_state data) (hud w)
       (hud (startBtn_resume (Body data) (fst (startBtn_click w))))
  /\ chatMessages (page (startBtn_resume (Body data) (fst (startBtn_click w))))
     = match start_messages data with
       | Some (_ :: _) => [EncounterGroup (length (wraps w))]
       | _ => []
       end
  /\ timers (startBtn_resume (Body data) (fst (startBtn_click w)))
     = timers w
       ++ staggered (clock w) (length (wraps w))
            (messagesOrEmpty (start_messages data))
  /\ alerts (startBtn_resume (Body data) (fst (startBtn_click w))) = alerts w
  /\ startBtn_disabled
       (page (startBtn_resume (Body data) (fst (startBtn_click w))))
     = true.
Proof.
  intros Hd Hok.
  pose proof (updateGameState_displays (start_state data) (hud w)) as Hshow.
  unfold startBtn_click. rewrite Hd. cbn [fst].
  unfold startBtn_resume. simpl in Hok.
  destruct (start_error data) as [[|c s]|]; try discriminate;
    destruct (start_messages data) as [[|m ms]|]; cbn [messagesOrEmpty];
    repeat match goal with |- _ /\ _ => split end;
    try exact Hshow; simpl; rewrite ?app_nil_r; reflexivity.
Qed.

Lemma successful_start_witness :
  (startBtn_disabled (page initialWorld) = false
   /\ startFailureText (Body Run.started) = None)
  /\ chatMessages
       (page (startBtn_resume (Body Run.started)
                (fst (startBtn_click initialWorld))))
     = [EncounterGroup 0]
  /\ sessionId
       (gameState (startBtn_resume (Body Run.started)
                     (fst (startBtn_click initialWorld))))
     = Some (lit "s1")
  /\ (health_value
        (hud (startBtn_resume (Body Run.started)
                (fst (startBtn_click initialWorld))))
      = lit "3/3"
      /\ mental_value
           (hud (startBtn_resume (Body Run.started)
                   (fst (startBtn_click initialWorld))))
         = lit "3/3"
      /\ money_value
           (hud (startBtn_resume (Body Run.started)
                   (fst (startBtn_click initialWorld))))
         = lit "0/3")
  /\ (filledIcons
        (health_icons
           (hud (startBtn_resume (Body Run.started)
                   (fst (startBtn_click initialWorld)))))
      = 3
      /\ filledIcons
           (mental_icons
              (hud (startBtn_resume (Body Run.started)
                      (fst (startBtn_click initialWorld)))))
         = 3
      /\ filledIcons
           (money_icons
              (hud (startBtn_resume (Body Run.started)
                      (fst (startBtn_click initialWorld)))))
         = 0).
Proof.
  split; [split; reflexivity|].
  pose proof (successful_start Run.started initialWorld eq_refl eq_refl)
    as (Hsession & _ & _ & _ & Hshow & Hchat & _).
  destruct Hshow as (Hlabels & Hicons & _).
  split; [exact Hchat|]. split; [rewrite Hsession; reflexivity|].
  split; [exact Hlabels | exact Hicons].
Defined.

(** ** One session until the restart *)

Lemma countStartRequests_app (l1 l2 : list Request) :
  countStartRequests (l1 ++ l2)
  = countStartRequests l1 + countStartRequests l2.
Proof. induction l1 as [|[|u i] l1 IH]; simpl; rewrite ?IH; reflexivity. Qed.

Lemma issue_countStart (b : Browser) (wr : World * option Request) :
  countStartRequests (sent (issue b wr))
  = countStartRequests (sent b) + countStart (snd wr).
Proof.
  unfold issue. cbn [sent]. rewrite countStartRequests_app.
  destruct (snd wr) as [[|u i]|]; reflexivity.
Qed.

Lemma step_keeps_startSettled (e : Event) (b : Browser) :
  isRestart e = false -> startSettled b ->
  startSettled (step e b)
  /\ countStartRequests (sent (step e b)) = countStartRequests (sent b).
Proof.
  intros He [Hp Hd]. unfold startSettled.
  destruct e; try discriminate; cbn [step].
  - rewrite (startBtn_click_disabled _ Hd), issue_nothing. auto.
  - rewrite issue_countStart. cbn [issue pendingStart world fst snd].
    destruct (sendChoice_start (world b)) as [-> ->].
    rewrite !Nat.add_0_r. auto.
  - rewrite issue_countStart. cbn [issue pendingStart world fst snd].
    unfold chatInput_keypress. destruct (strictEq _ _).
    + destruct (sendChoice_start (world b)) as [-> ->].
      rewrite !Nat.add_0_r. auto.
    + cbn [fst snd countStart]. rewrite !Nat.add_0_r. auto.
  - auto.
  - rewrite Hp. auto.
  - destruct (pendingChoice b); [auto|]. cbn [pendingStart world sent].
    rewrite sendChoice_resume_start. auto.
  - cbn [pendingStart world sent].
    destruct (fireTimer_controls (world b)) as (-> & _). auto.
Qed.

(** X5: once a start has succeeded (the button is disabled and no start
    request is pending), nothing but the restart enables the start button:
    over any sequence of events without a restart the button stays disabled
    and no further start request is sent, so one page holds one session
    until the player restarts. *)
Theorem one_session_until_restart (b : Browser) (es : list Event) :
  pendingStart b = 0 ->
  startBtn_disabled (page (world b)) = true ->
  forallb (fun e => negb (isRestart e)) es = true ->
  startBtn_disabled (page (world (run es b))) = true
  /\ pendingStart (run es b) = 0
  /\ countStartRequests (sent (run es b)) = countStartRequests (sent b).
Proof.
  intros Hp Hd Hes.
  assert (H : startSettled b) by (split; assumption). clear Hp Hd.
  revert b H. induction es as [|e es IH]; intros b H.
  - destruct H. auto.
  - simpl in Hes. apply andb_true_iff in Hes as [He Hes].
    apply negb_true_iff in He.
    destruct (step_keeps_startSettled e b He H) as [H' Hsent].
    destruct (IH Hes (step e b) H') as (Hd & Hp & Hcount).
    cbn [run fold_left] in *. rewrite <- Hsent. auto.
Qed.

Lemma one_session_witness :
  (pendingStart More.typed = 0
   /\ startBtn_disabled (page (world More.typed)) = true)
  /\ countStartRequests
       (sent (run [ClickStart; ClickSend; ClickStart;
                   StartResponse NetworkError; ClickStart] More.typed))
     = 1.
Proof.
  split; [split; reflexivity|].
  apply (one_session_until_restart More.typed
           [ClickStart; ClickSend; ClickStart; StartResponse NetworkError;
            ClickStart] eq_refl eq_refl eq_refl).
Defined.

(** ** Who writes the session record *)





(** ** The entries of a response *)

(** X7: the story entry of a response that reports no error shows [story]
    of the mapped choice, and [explanation] only when [story] is missing or
    empty; when both are, or there is no mapped choice, no story entry is
    appended. It comes first among the entries of the response, and no
    other of them is a story entry. *)
Theorem story_falls_back_to_explanation (data : ChoiceData) (w : World) :
  failureText (Body data) = None ->
  exists rest : list ChatNode,
    countType story_ rest = 0
    /\ chatMessages (page (sendChoice_resume (Body data) w))
       = chatMessages (page w)
         ++ match choice_mapped data with
            | Some cm =>
                match story cm with
                | Some (c :: s) => [MessageDiv story_ (c :: s)]
                | _ =>
                    match explanation cm with
                    | Some (c :: s) => [MessageDiv story_ (c :: s)]
                    | _ => []
                    end
                end
            | None => []
            end
         ++ rest.
Proof.
  intros Hok. exists (resultEntries data ++ encounterEntries data w). split.
  - rewrite countType_app. unfold resultEntries, encounterEntries.
    destruct (result data) as [r|]; [destruct (compositeSpec r)|];
      destruct (continues data), (messages data) as [[|? ?]|]; reflexivity.
  - rewrite (sendChoice_resume_chat data w Hok). unfold storyEntries.
    destruct (choice_mapped data) as [[[[|? ?]|] [[|? ?]|]]|]; reflexivity.
Qed.

Lemma story_falls_back_witness :
  failureText (Body More.continued) = None
  /\ exists rest : list ChatNode,
       countType story_ rest = 0
       /\ chatMessages (page (sendChoice_resume (Body More.continued)
                                (world Run.choiceInFlight)))
          = chatMessages (page (world Run.choiceInFlight))
            ++ [MessageDiv story_ (lit "you wait")] ++ rest.
Proof.
  split; [reflexivity|].
  apply (story_falls_back_to_explanation More.continued
           (world Run.choiceInFlight) eq_refl).
Defined.

Lemma lineSpec_nil (c : N) (heading : jsstring) (entries : list jsstring) :
  lineSpec (c :: heading) entries = [] <-> entries = [].
Proof. destruct entries; simpl; split; congruence. Qed.

Lemma deltaSpec_nil (label : jsstring) (v : option Z) :
  deltaSpec label v = [] <-> noDelta v.
Proof.
  unfold deltaSpec, noDelta. destruct v as [z|]; [|split; auto].
  destruct (Z.ltb_spec 0 z); [|destruct (Z.ltb_spec z 0)].
  - split; [discriminate|]. intros [|[= ->]]; [discriminate|lia].
  - split; [discriminate|]. intros [|[= ->]]; [discriminate|lia].
  - split; [|reflexivity]. intros _. right. f_equal. lia.
Qed.

Lemma gadgetSpec_nil (g : GadgetChange) : gadgetSpec g = [] <-> otherAction g.
Proof.
  unfold gadgetSpec, otherAction. repeat case_decide; split;
    try discriminate; try tauto; auto.
Qed.

Lemma gadgetsSpec_nil (gs : list GadgetChange) :
  concat (map gadgetSpec gs) = [] <-> Forall otherAction gs.
Proof.
  induction gs as [|g gs IH]; simpl; [split; auto|].
  split.
  - intros H. apply app_eq_nil in H as [Hg Hgs].
    constructor; [apply gadgetSpec_nil, Hg | apply IH, Hgs].
  - inversion 1 as [|? ? Hg Hgs]; subst.
    apply gadgetSpec_nil in Hg. apply IH in Hgs. rewrite Hg, Hgs. reflexivity.
Qed.

(** X8: the text [sendChoice] builds from a result is empty, so that no
    result entry is appended, exactly when nothing of the result is worth a
    line: every delta of its resources is undefined or zero, and no entry
    of its gadgets has the action acquire or lose. *)
Theorem resultText_empty_iff (r : ChoiceResult) :
  resultText r = []
  <-> ((forall res, result_resources r = Some res ->
          noDelta (health res) /\ noDelta (mental res) /\ noDelta (money res))
       /\ (forall gs, result_gadgets r = Some gs -> Forall otherAction gs)).
Proof.
  rewrite resultText_compositeSpec. unfold compositeSpec.
  split.
  - intros H. apply app_eq_nil in H as [Hres Hgad].
    apply (lineSpec_nil 51088 [50896; 32; 48320; 54868; 58; 32]%N) in Hres.
    apply (lineSpec_nil 44032 [51247; 32; 48320; 54868; 58; 32]%N) in Hgad.
    split.
    + intros res Hr. rewrite Hr in Hres. simpl in Hres.
      apply app_eq_nil in Hres as [Hh Hres].
      apply app_eq_nil in Hres as [Hm Hy].
      rewrite deltaSpec_nil in Hh, Hm, Hy. auto.
    + intros gs Hg. rewrite Hg in Hgad. apply gadgetsSpec_nil, Hgad.
  - intros [Hres Hgad].
    assert (E1 : deltasSpec (result_resources r) = []).
    { destruct (result_resources r) as [res|]; [|reflexivity].
      destruct (Hres res eq_refl) as (Hh & Hm & Hy). simpl.
      rewrite (proj2 (deltaSpec_nil Lit.healthLabel _) Hh),
        (proj2 (deltaSpec_nil Lit.mentalLabel _) Hm),
        (proj2 (deltaSpec_nil Lit.moneyLabel _) Hy). reflexivity. }
    assert (E2 : gadgetsSpec (result_gadgets r) = []).
    { destruct (result_gadgets r) as [gs|]; [|reflexivity].
      apply gadgetsSpec_nil, Hgad. reflexivity. }
    rewrite E1, E2. reflexivity.
Qed.

Lemma resultText_empty_witness :
  resultText More.nothingHappens = []
  /\ resultText (mkChoiceResult None (Some [])) = [].
Proof.
  split.
  - apply (proj2 (resultText_empty_iff More.nothingHappens)). split.
    + intros res [= <-]. repeat split; [right|left|right]; reflexivity.
    + intros gs [= <-]. repeat constructor; discriminate.
  - apply (proj2 (resultText_empty_iff (mkChoiceResult None (Some [])))).
    split; [discriminate|]. intros gs [= <-]. constructor.
Defined.

(** X9: a response that reports no error and does not end the game enables
    the input field and the send button again and gives the focus to the
    field, with or without a next encounter. After a submission the
    transcript holds the trimmed input as a player entry, then the entries
    of the response; [currentEncounter] is replaced only when
    [next_encounter] is truthy, and without one the messages of the
    response are dropped: no container, no timer. *)
Theorem continuing_response (w0 w : World) (req : Request)
    (data : ChoiceData) :
  sendChoice w0 = (w, Some req) ->
  failureText (Body data) = None ->
  game_over data <> Some true ->
  chatInput_disabled (page (sendChoice_resume (Body data) w)) = false
  /\ sendBtn_disabled (page (sendChoice_resume (Body data) w)) = false
  /\ chatInput_focus (page (sendChoice_resume (Body data) w))
     = S (chatInput_focus (page w0))
  /\ chatInput_value (page (sendChoice_resume (Body data) w)) = []
  /\ currentEncounter (gameState (sendChoice_resume (Body data) w))
     = (if truthyJson (next_encounter data) then next_encounter data
        else currentEncounter (gameState w0))
  /\ chatMessages (page (sendChoice_resume (Body data) w))
     = chatMessages (page w0)
       ++ [MessageDiv player (trim (chatInput_value (page w0)))]
       ++ storyEntries data ++ resultEntries data ++ encounterEntries data w0
  /\ (truthyJson (next_encounter data) = false ->
      timers (sendChoice_resume (Body data) w) = timers w0
      /\ wraps (sendChoice_resume (Body data) w) = wraps w0).
Proof.
  intros Hsent Hok Hover.
  assert (Hw : w = upd_page (set_sendBtn_disabled true)
                     (upd_page (set_chatInput_disabled true)
                        (upd_page (set_chatInput_value [])
                           (upd_page
                              (addMessage (trim (chatInput_value (page w0)))
                                 player) w0)))).
  { revert Hsent. unfold sendChoice. destruct (negb _); [discriminate|].
    destruct (sessionId (gameState w0)) as [[|c s]|]; try discriminate.
    now intros [= <- _]. }
  assert (Hcont : continues data = truthyJson (next_encounter data)).
  { unfold continues. destruct (game_over data) as [[|]|]; congruence. }
  rewrite (sendChoice_resume_chat data w Hok).
  rewrite (sendChoice_resume_ok data w Hok). cbv zeta.
  unfold encounterEntries. rewrite Hcont.
  destruct (truthyJson (next_encounter data)).
  - subst w. destruct (messages data) as [[|m ms]|]; simpl;
      rewrite <- ?app_assoc; repeat split; discriminate.
  - subst w. destruct (game_over data) as [[|]|]; try congruence; simpl;
      rewrite <- ?app_assoc; repeat split.
Qed.

Lemma continuing_response_witness :
  sendChoice (world More.typed)
  = (world Run.choiceInFlight,
     Some (ChoiceRequest (lit "/api/game/s1/choice") (lit "go")))
  /\ chatInput_disabled
       (page (sendChoice_resume (Body More.continued)
                (world Run.choiceInFlight)))
     = false
  /\ chatMessages
       (page (sendChoice_resume (Body More.continued)
                (world Run.choiceInFlight)))
     = [EncounterGroup 0; MessageDiv player (lit "go");
        MessageDiv story_ (lit "you wait"); EncounterGroup 1].
Proof.
  assert (Hsent : sendChoice (world More.typed)
                  = (world Run.choiceInFlight,
                     Some (ChoiceRequest (lit "/api/game/s1/choice")
                             (lit "go"))))
    by (vm_compute; reflexivity).
  split; [exact Hsent|].
  destruct (continuing_response (world More.typed) (world Run.choiceInFlight)
              (ChoiceRequest (lit "/api/game/s1/choice") (lit "go"))
              More.continued Hsent eq_refl)
    as (Hin & _ & _ & _ & _ & Hchat & _); [discriminate|].
  split; [exact Hin | vm_compute in Hchat; exact Hchat].
Defined.

(** ** The resource display over several states *)

(** X10: the gadget list of the display is never empty. It holds the names
    of the gadgets joined by a comma and a space, without their counts, and
    the placeholder when that text is empty: when [gadgets] is missing or
    has no entry. Two states with the same names show the same list. *)
Theorem gadget_list_never_empty (s s' : GameState) (h h' : Hud) :
  gadgets_list (updateGameState (Some s) h) <> []
  /\ (gadgets s = None \/ gadgets s = Some [] ->
      gadgets_list (updateGameState (Some s) h) = Lit.none)
  /\ (join (lit ", ")
        (map fst (match gadgets s with Some g => g | None => [] end))
      <> [] ->
      gadgets_list (updateGameState (Some s) h)
      = join (lit ", ")
          (map fst (match gadgets s with Some g => g | None => [] end)))
  /\ (map fst (match gadgets s with Some g => g | None => [] end)
      = map fst (match gadgets s' with Some g => g | None => [] end) ->
      gadgets_list (updateGameState (Some s) h)
      = gadgets_list (updateGameState (Some s') h')).
Proof.
  cbn [updateGameState gadgets_list].
  split; [|split; [|split]].
  - destruct (join _ _); discriminate.
  - intros [->| ->]; reflexivity.
  - destruct (join _ _); [contradiction|reflexivity].
  - intros ->. reflexivity.
Qed.

Lemma gadget_list_witness :
  gadgets_list
    (updateGameState
       (Some (mkGameState None (Some [(lit "key", 2%Z); (lit "map", 1%Z)])))
       (hud initialWorld))
  = lit "key, map"
  /\ gadgets_list (updateGameState (Some Run.outOfRange) (hud initialWorld))
     = Lit.none.
Proof.
  split.
  - destruct (gadget_list_never_empty
                (mkGameState None (Some [(lit "key", 2%Z); (lit "map", 1%Z)]))
                Run.outOfRange (hud initialWorld) (hud initialWorld))
      as (_ & _ & Hjoin & _).
    apply Hjoin. discriminate.
  - destruct (gadget_list_never_empty Run.outOfRange Run.outOfRange
                (hud initialWorld) (hud initialWorld)) as (_ & Hnone & _).
    apply Hnone. left. reflexivity.
Defined.




(** ** Timers that outlive the transcript *)

Lemma pickTimer_length (ts : list Timer) (t : Timer) (rest : list Timer) :
  pickTimer ts = Some (t, rest) -> length ts = S (length rest).
Proof.
  revert t rest; induction ts as [|t0 ts IH]; intros t rest; [discriminate|].
  simpl. destruct (pickTimer ts) as [[t' rest']|] eqn:E.
  - destruct (due t' <? due t0); intros [= <- <-]; [|reflexivity].
    simpl. f_equal. apply (IH t' rest' eq_refl).
  - intros [= <- <-]. destruct ts; [reflexivity|]. simpl in E.
    destruct (pickTimer ts) as [[? ?]|]; [destruct (_ <? _)|]; discriminate.
Qed.

Lemma encounterTimeout_rest (wrap : nat) (m : Message) (w : World) :
  hud (encounterTimeout wrap m w) = hud w
  /\ alerts (encounterTimeout wrap m w) = alerts w
  /\ welcomeScreen (page (encounterTimeout wrap m w)) = welcomeScreen (page w)
  /\ gameScreen (page (encounterTimeout wrap m w)) = gameScreen (page w)
  /\ gameOverScreen (page (encounterTimeout wrap m w))
     = gameOverScreen (page w)
  /\ length (wraps (encounterTimeout wrap m w)) = length (wraps w).
Proof.
  unfold encounterTimeout. repeat case_match; repeat split;
    cbn [wraps upd_wraps upd_page]; apply length_alter.
Qed.

Lemma fireTimer_frame (w : World) :
  chatMessages (page (fireTimer w)) = chatMessages (page w)
  /\ gameState (fireTimer w) = gameState w
  /\ hud (fireTimer w) = hud w
  /\ alerts (fireTimer w) = alerts w
  /\ welcomeScreen (page (fireTimer w)) = welcomeScreen (page w)
  /\ gameScreen (page (fireTimer w)) = gameScreen (page w)
  /\ gameOverScreen (page (fireTimer w)) = gameOverScreen (page w)
  /\ length (wraps (fireTimer w)) = length (wraps w)
  /\ length (timers (fireTimer w)) = length (timers w) - 1.
Proof.
  unfold fireTimer. destruct (pickTimer (timers w)) as [[t rest]|] eqn:E.
  - apply pickTimer_length in E.
    destruct (encounterTimeout_effect (timer_wrap t) (timer_item t)
                (upd_clock (fun c => Nat.max c (due t))
                   (upd_timers (fun _ => rest) w)))
      as (_ & -> & _ & -> & ->).
    destruct (encounterTimeout_rest (timer_wrap t) (timer_item t)
                (upd_clock (fun c => Nat.max c (due t))
                   (upd_timers (fun _ => rest) w)))
      as (-> & -> & -> & -> & -> & ->).
    cbn. rewrite E. repeat split. lia.
  - destruct (timers w) as [|t ts]; [repeat split|]. simpl in E.
    destruct (pickTimer ts) as [[? ?]|]; [destruct (_ <? _)|]; discriminate.
Qed.


Lemma reveal_from (items : list Message) (t0 : nat)
    (ws : list (list WrapChild)) (children : list WrapChild) (w1 : World)
    (k : nat) :
  timers w1 = staggered t0 (length ws) items ->
  wraps w1 = ws ++ [children] ->
  clock w1 <= t0 ->
  k <= length items ->
  timers (fireTimers k w1) = drop k (staggered t0 (length ws) items)
  /\ wraps (fireTimers k w1)
     = ws ++ [children ++ concat (map itemNodes (take k items))]
  /\ clock (fireTimers k w1)
     = match k with 0 => clock w1 | S j => t0 + j * 500 end.
Proof.
  intros Hts0 Hws0 Hck0. induction k as [|k IH]; intros Hk.
  - cbn [fireTimers]. rewrite Hts0, Hws0. simpl. rewrite app_nil_r. auto.
  - destruct IH as (Hts & Hws & Hck); [lia|].
    destruct (lookup_lt_is_Some_2 items k) as [m Hm]; [lia|].
    pose proof (staggered_lookup t0 (length ws) items k m Hm) as Ht.
    rewrite (drop_S _ _ _ Ht) in Hts.
    cbn [fireTimers].
    set (wk := fireTimers k w1) in *.
    unfold fireTimer. rewrite Hts, pickTimer_head by apply staggered_later.
    cbn [due timer_wrap timer_item].
    destruct (encounterTimeout_effect (length ws) m
                (upd_clock (fun c => Nat.max c (t0 + k * 500))
                   (upd_timers
                      (fun _ => drop (S k) (staggered t0 (length ws) items))
                      wk))) as (-> & -> & -> & _).
    cbn [wraps timers clock upd_clock upd_timers]. rewrite Hws, Hck.
    split; [reflexivity|]. split.
    + rewrite <- (Nat.add_0_r (length ws)) at 1.
      rewrite alter_app_r. cbn [alter list_alter].
      rewrite (take_S_r _ _ _ Hm), map_app, concat_app. simpl.
      rewrite app_nil_r, <- app_assoc. reflexivity.
    + destruct k; lia.
Qed.

Lemma fireTimers_chat (k : nat) (w : World) :
  chatMessages (page (fireTimers k w)) = chatMessages (page w)
  /\ length (timers (fireTimers k w)) = length (timers w) - k.
Proof.
  induction k as [|k [IHc IHt]]; cbn [fireTimers]; [split; [reflexivity|lia]|].
  destruct (fireTimer_frame (fireTimers k w))
    as (-> & _ & _ & _ & _ & _ & _ & _ & ->).
  split; [exact IHc | lia].
Qed.

(** X13: the restart does not cancel a reveal. When it is clicked right
    after an encounter was handed to [addEncounterBubbles], all timers of
    the encounter are still pending; they run as if nothing had happened and
    fill their container, which is no longer in the transcript: the
    transcript stays empty while the container receives the nodes. *)
Theorem restart_does_not_cancel_reveal (items : list Message) (w : World)
    (k : nat) :
  items <> [] ->
  timers w = [] ->
  k <= length items ->
  timers (restartBtn_click (addEncounterBubbles items w))
  = staggered (clock w) (length (wraps w)) items
  /\ chatMessages
       (page (fireTimers k (restartBtn_click (addEncounterBubbles items w))))
     = []
  /\ wraps (fireTimers k (restartBtn_click (addEncounterBubbles items w)))
     = wraps w ++ [concat (map itemNodes (take k items))]
  /\ length
       (timers (fireTimers k (restartBtn_click (addEncounterBubbles items w))))
     = length items - k.
Proof.
  intros Hne Hnone Hk.
  destruct (addEncounterBubbles_effect items w Hne)
    as (Hts & Hws & Hck & _).
  rewrite Hnone in Hts. cbn [app] in Hts.
  assert (Hts' : timers (restartBtn_click (addEncounterBubbles items w))
                 = staggered (clock w) (length (wraps w)) items)
    by exact Hts.
  split; [exact Hts'|].
  destruct (fireTimers_chat k (restartBtn_click (addEncounterBubbles items w)))
    as (-> & Hlen).
  split; [reflexivity|].
  destruct (reveal_from items (clock w) (wraps w) []
              (restartBtn_click (addEncounterBubbles items w)) k Hts' Hws)
    as (_ & -> & _); [cbn [restartBtn_click clock upd_page upd_gameState];
                      rewrite Hck; lia | exact Hk |].
  split; [reflexivity|].
  rewrite Hlen, Hts'. unfold staggered. rewrite length_imap. reflexivity.
Qed.

Lemma restart_does_not_cancel_witness :
  (Run.threeItems <> [] /\ timers initialWorld = [])
  /\ chatMessages
       (page (fireTimers 3
                (restartBtn_click
                   (addEncounterBubbles Run.threeItems initialWorld))))
     = []
  /\ wraps (fireTimers 3
              (restartBtn_click
                 (addEncounterBubbles Run.threeItems initialWorld)))
     = [[EncounterBubble (lit "first"); EncounterBubble (lit "second")]].
Proof.
  split; [split; [discriminate|reflexivity]|].
  destruct (restart_does_not_cancel_reveal Run.threeItems initialWorld 3)
    as (_ & Hchat & Hwraps & _); [discriminate | reflexivity | cbn; lia |].
  split; [exact Hchat | exact Hwraps].
Defined.

(** ** What stays in the transcript *)

Lemma sendChoice_chat_grows (w : World) :
  chatMessages (page w) `prefix_of` chatMessages (page (fst (sendChoice w))).
Proof.
  unfold sendChoice. destruct (negb _); [reflexivity|].
  destruct (sessionId (gameState w)) as [[|c s]|]; try reflexivity.
  cbn. apply prefix_app_r. reflexivity.
Qed.

Lemma startBtn_resume_chat_grows (o : outcome StartData) (w : World) :
  chatMessages (page w) `prefix_of` chatMessages (page (startBtn_resume o w)).
Proof.
  destruct o as [| |data]; try reflexivity. unfold startBtn_resume.
  destruct (start_error data) as [[|c s]|]; try reflexivity;
    destruct (messagesOrEmpty (start_messages data)); cbn;
    try reflexivity; apply prefix_app_r; reflexivity.
Qed.

Lemma sendChoice_resume_chat_grows (o : outcome ChoiceData) (w : World) :
  chatMessages (page w)
  `prefix_of` chatMessages (page (sendChoice_resume o w)).
Proof.
  destruct (failureText o) as [msg|] eqn:Hf.
  - destruct o as [| |data]; simpl in Hf.
    + cbn. apply prefix_app_r. reflexivity.
    + cbn. apply prefix_app_r. reflexivity.
    + unfold sendChoice_resume.
      destruct (error data) as [[|c s]|]; try discriminate.
      cbn. apply prefix_app_r. reflexivity.
  - destruct o as [| |data]; try discriminate.
    rewrite (sendChoice_resume_chat data w Hf).
    apply prefix_app_r. reflexivity.
Qed.

Lemma step_chat_grows (e : Event) (b : Browser) :
  clearsTranscript e = false ->
  chatMessages (page (world b))
  `prefix_of` chatMessages (page (world (step e b))).
Proof.
  intros He. destruct e; try discriminate; cbn [step issue world fst].
  - apply sendChoice_chat_grows.
  - unfold chatInput_keypress. destruct (strictEq _ _);
      [apply sendChoice_chat_grows | reflexivity].
  - reflexivity.
  - destruct (pendingStart b); [reflexivity|]. cbn [world].
    apply startBtn_resume_chat_grows.
  - destruct (pendingChoice b); [reflexivity|]. cbn [world].
    apply sendChoice_resume_chat_grows.
  - destruct (fireTimer_frame (world b)) as (-> & _). reflexivity.
Qed.

(** X14: during play the transcript only grows. Every event other than a
    click on the start button or on the restart button leaves the nodes the
    transcript has in place and in order, and at most appends to them: no
    handler removes or rewrites an entry, whatever the responses are. *)
Theorem transcript_only_grows (b : Browser) (es : list Event) :
  forallb (fun e => negb (clearsTranscript e)) es = true ->
  chatMessages (page (world b))
  `prefix_of` chatMessages (page (world (run es b))).
Proof.
  revert b. induction es as [|e es IH]; intros b Hes; [reflexivity|].
  simpl in Hes. apply andb_true_iff in Hes as [He Hes].
  apply negb_true_iff in He.
  transitivity (chatMessages (page (world (step e b)))).
  - apply step_chat_grows, He.
  - apply (IH (step e b) Hes).
Qed.

Lemma transcript_only_grows_witness :
  chatMessages (page (world More.typed))
  `prefix_of`
  chatMessages
    (page (world (run [ClickSend; ChoiceResponse (Body More.continued);
                       TimerFires; TypeInput (lit "x"); ClickSend;
                       ChoiceResponse NetworkError] More.typed))).
Proof.
  apply (transcript_only_grows More.typed
           [ClickSend; ChoiceResponse (Body More.continued); TimerFires;
            TypeInput (lit "x"); ClickSend; ChoiceResponse NetworkError]).
  reflexivity.
Defined.

Lemma addEncounterBubbles_keeps_containers (items : list Message) (w : World)
    (i : nat) (children : list WrapChild) :
  wraps w !! i = Some children ->
  wraps (addEncounterBubbles items w) !! i = Some children.
Proof.
  intros H. destruct items; [exact H|]. cbn.
  apply lookup_app_l_Some, H.
Qed.

Lemma fireTimer_keeps_containers (w : World) (i : nat)
    (children : list WrapChild) :
  wraps w !! i = Some children ->
  exists more, wraps (fireTimer w) !! i = Some (children ++ more).
Proof.
  intros H. unfold fireTimer.
  destruct (pickTimer (timers w)) as [[t rest]|].
  - destruct (encounterTimeout_effect (timer_wrap t) (timer_item t)
                (upd_clock (fun c => Nat.max c (due t))
                   (upd_timers (fun _ => rest) w))) as (-> & _).
    cbn [wraps upd_clock upd_timers].
    destruct (decide (timer_wrap t = i)) as [->|Hne].
    + exists (itemNodes (timer_item t)).
      rewrite list_lookup_alter_eq, H. reflexivity.
    + exists []. rewrite list_lookup_alter_ne, app_nil_r by exact Hne. exact H.
  - exists []. rewrite app_nil_r. exact H.
Qed.

Lemma step_keeps_containers (e : Event) (b : Browser) (i : nat)
    (children : list WrapChild) :
  wraps (world b) !! i = Some children ->
  exists more, wraps (world (step e b)) !! i = Some (children ++ more).
Proof.
  intros H.
  assert (Hsame : forall w', wraps w' = wraps (world b) ->
            exists more, wraps w' !! i = Some (children ++ more)).
  { intros w' ->. exists []. rewrite app_nil_r. exact H. }
  destruct e; cbn [step issue world fst].
  - apply Hsame. unfold startBtn_click.
    destruct (startBtn_disabled _); reflexivity.
  - apply Hsame. reflexivity.
  - apply Hsame. unfold sendChoice. destruct (negb _); [reflexivity|].
    destruct (sessionId _) as [[|c s]|]; reflexivity.
  - apply Hsame. unfold chatInput_keypress, sendChoice.
    destruct (strictEq _ _); [|reflexivity]. destruct (negb _); [reflexivity|].
    destruct (sessionId _) as [[|c s]|]; reflexivity.
  - apply Hsame. reflexivity.
  - destruct (pendingStart b); [apply Hsame; reflexivity|]. cbn [world].
    exists []. rewrite app_nil_r.
    destruct o as [| |data]; try exact H. unfold startBtn_resume.
    destruct (start_error data) as [[|c s]|]; try exact H;
      apply addEncounterBubbles_keeps_containers; exact H.
  - destruct (pendingChoice b); [apply Hsame; reflexivity|]. cbn [world].
    exists []. rewrite app_nil_r.
    destruct (failureText o) as [msg|] eqn:Hf.
    + destruct o as [| |data]; try exact H. unfold sendChoice_resume.
      simpl in Hf. destruct (error data) as [[|c s]|]; try discriminate.
      exact H.
    + destruct o as [| |data]; try discriminate.
      rewrite (sendChoice_resume_ok data _ Hf). cbv zeta.
      destruct (continues data).
      * cbn [wraps upd_page].
        apply addEncounterBubbles_keeps_containers. exact H.
      * destruct (game_over data) as [[|]|]; exact H.
  - apply fireTimer_keeps_containers, H.
Qed.

(** X15: a container of an encounter never loses a node. Over any sequence
    of events, a restart or a new start included, every container keeps
    its index in the store and the nodes it has, in order; the timers only
    append to it. *)
Theorem containers_only_grow (b : Browser) (es : list Event) (i : nat)
    (children : list WrapChild) :
  wraps (world b) !! i = Some children ->
  exists more, wraps (world (run es b)) !! i = Some (children ++ more).
Proof.
  revert b children. induction es as [|e es IH]; intros b children H.
  - exists []. rewrite app_nil_r. exact H.
  - destruct (step_keeps_containers e b i children H) as [m1 H1].
    destruct (IH (step e b) (children ++ m1) H1) as [m2 H2].
    exists (m1 ++ m2). rewrite app_assoc. exact H2.
Qed.

Lemma containers_only_grow_witness :
  wraps (world More.typed) !! 0 = Some []
  /\ exists more,
       wraps (world (run [TimerFires; ClickRestart; ClickStart] More.typed))
       !! 0
       = Some ([] ++ more).
Proof.
  split; [reflexivity|].
  apply (containers_only_grow More.typed [TimerFires; ClickRestart; ClickStart]
           0 [] eq_refl).
Defined.

(** ** The end of the game *)

(** C5: a response that reports no error and has [game_over] true shows the
    game-over view with the reason given, or with the default reason when
    none (or an empty one) is given, and stops there: the input field and
    the send button are left as they were, so disabled after a submission,
    the session record, the containers and the timers are untouched and the
    transcript gains the story and result entries only, whatever
    [next_encounter] is. Before the switch the resource display is brought
    up to the state of the response: its three labels, the filled icons of
    its three groups and its gadget list are those of that state (and the
    display is left alone when the response has no state). *)
Theorem C5_game_over_stops (data : ChoiceData) (w : World) :
  failureText (Body data) = None ->
  game_over data = Some true ->
  gameOverScreen (page (sendChoice_resume (Body data) w)) = DisplayBlock
  /\ gameScreen (page (sendChoice_resume (Body data) w)) = DisplayNone
  /\ game_over_reason_text (page (sendChoice_resume (Body data) w))
     = match game_over_reason data with
       | Some (c :: s) => c :: s
       | _ => Lit.gameEnded
       end
  /\ chatInput_disabled (page (sendChoice_resume (Body data) w))
     = chatInput_disabled (page w)
  /\ sendBtn_disabled (page (sendChoice_resume (Body data) w))
     = sendBtn_disabled (page w)
  /\ (forall w0 req, sendChoice w0 = (w, Some req) ->
        chatInput_disabled (page (sendChoice_resume (Body data) w)) = true
        /\ sendBtn_disabled (page (sendChoice_resume (Body data) w)) = true)
  /\ gameState (sendChoice_resume (Body data) w) = gameState w
  /\ wraps (sendChoice_resume (Body data) w) = wraps w
  /\ timers (sendChoice_resume (Body data) w) = timers w
  /\ chatMessages (page (sendChoice_resume (Body data) w))
     = chatMessages (page w) ++ storyEntries data ++ resultEntries data
  /\ hud (sendChoice_resume (Body data) w)
     = updateGameState (choice_state data) (hud w)
  /\ displayFollows (choice_state data) (hud w)
       (hud (sendChoice_resume (Body data) w)).
Proof.
  intros Hok Hover.
  pose proof (updateGameState_displays (choice_state data) (hud w)) as Hshow.
  rewrite (sendChoice_resume_ok data w Hok).
  unfold continues. rewrite Hover. cbv zeta.
  repeat match goal with |- _ /\ _ => split end;
    try exact Hshow; try reflexivity.
  intros w0 req Hsent.
  destruct (sendChoice_sends w0 w req Hsent) as (Hin & Hbtn & _).
  split; [exact Hin | exact Hbtn].
Qed.

Lemma C5_game_over_witness :
  (failureText (Body More.lastBlow) = None
   /\ game_over More.lastBlow = Some true)
  /\ game_over_reason_text
       (page (sendChoice_resume (Body More.lastBlow)
                (world Run.choiceInFlight)))
     = lit "you fell"
  /\ gameState (sendChoice_resume (Body More.lastBlow)
                  (world Run.choiceInFlight))
     = gameState (world Run.choiceInFlight)
  /\ chatMessages (page (sendChoice_resume (Body More.lastBlow)
                           (world Run.choiceInFlight)))
     = chatMessages (page (world Run.choiceInFlight))
  /\ (health_value (hud (sendChoice_resume (Body More.lastBlow)
                           (world Run.choiceInFlight)))
      = lit "0/3"
      /\ mental_value (hud (sendChoice_resume (Body More.lastBlow)
                              (world Run.choiceInFlight)))
         = lit "3/3"
      /\ money_value (hud (sendChoice_resume (Body More.lastBlow)
                             (world Run.choiceInFlight)))
         = lit "2/3")
  /\ (filledIcons (health_icons (hud (sendChoice_resume (Body More.lastBlow)
                                        (world Run.choiceInFlight))))
      = 0
      /\ filledIcons (mental_icons (hud (sendChoice_resume (Body More.lastBlow)
                                           (world Run.choiceInFlight))))
         = 3
      /\ filledIcons (money_icons (hud (sendChoice_resume (Body More.lastBlow)
                                          (world Run.choiceInFlight))))
         = 2)
  /\ gadgets_list (hud (sendChoice_resume (Body More.lastBlow)
                          (world Run.choiceInFlight)))
     = lit "key".
Proof.
  split; [split; reflexivity|].
  pose proof (C5_game_over_stops More.lastBlow (world Run.choiceInFlight)
                eq_refl eq_refl)
    as (_ & _ & Hreason & _ & _ & _ & Hsession & _ & _ & Hchat & _ & Hshow).
  destruct Hshow as (Hlabels & Hicons & _ & Hgadgets).
  split; [exact Hreason|]. split; [exact Hsession|].
  split; [rewrite Hchat; apply app_nil_r|].
  split; [exact Hlabels|]. split; [exact Hicons | exact Hgadgets].
Defined.

(** ** The player after the end of the game *)

(** What the page delivers is a part of what can be fired: a run of the
    page is the run of the events it did deliver. *)
Lemma deliver_is_run (es : list Event) (b : Browser) :
  exists es', es' `sublist_of` es /\ deliver es b = run es' b.
Proof.
  revert b. induction es as [|e es IH]; intros b.
  - exists []. split; reflexivity.
  - unfold deliver. cbn [fold_left]. fold (deliver es (deliverStep e b)).
    unfold deliverStep. destruct (delivered e (world b)).
    + destruct (IH (step e b)) as (es' & Hsub & ->).
      exists (e :: es'). split; [apply sublist_skip, Hsub | reflexivity].
    + destruct (IH b) as (es' & Hsub & ->).
      exists es'. split; [apply sublist_cons, Hsub | reflexivity].
Qed.

(** While the input field and the send button are disabled, the page
    delivers nothing the player does with them, and no other event but the
    response to a choice enables them: no choice request is sent and none
    becomes pending. *)
Lemma deliverStep_stuck (n : nat) (e : Event) (b : Browser) :
  isChoiceResponse e = false \/ pendingChoice b = 0 ->
  stuck n b ->
  stuck n (deliverStep e b)
  /\ pendingChoice (deliverStep e b) = pendingChoice b.
Proof.
  intros Hcase [Hin Hsent]. pose proof Hin as [Hfield Hbtn].
  assert (Hkeep : isChoiceResponse e = false ->
                  inputDisabled (world (step e b)))
    by (intros He; apply step_keeps_input_disabled; assumption).
  unfold deliverStep, delivered, stuck.
  destruct e; rewrite ?Hfield, ?Hbtn; cbn [negb]; cbv iota.
  - destruct (negb (startBtn_disabled (page (world b)))); [|auto].
    split; [split; [apply Hkeep; reflexivity|]|].
    + cbn [step issue sent]. unfold startBtn_click.
      destruct (startBtn_disabled (page (world b))); cbn [snd];
        rewrite countChoiceRequests_app; simpl; lia.
    + cbn [step issue pendingChoice]. unfold startBtn_click.
      destruct (startBtn_disabled (page (world b))); simpl; lia.
  - split; [split; [apply Hkeep; reflexivity | exact Hsent] | reflexivity].
  - auto.
  - auto.
  - auto.
  - split; [split; [apply Hkeep; reflexivity|]|];
      cbn [step]; destruct (pendingStart b); auto.
  - destruct Hcase as [Hcase|Hnone]; [discriminate|].
    cbn [step]. rewrite Hnone. auto.
  - split; [split; [apply Hkeep; reflexivity | exact Hsent] | reflexivity].
Qed.

Lemma deliver_stuck (n : nat) (es : list Event) (b : Browser) :
  forallb (fun e => negb (isChoiceResponse e)) es = true
  \/ pendingChoice b = 0 ->
  stuck n b ->
  stuck n (deliver es b).
Proof.
  revert b. induction es as [|e es IH]; intros b Hcase H; [exact H|].
  unfold deliver. cbn [fold_left]. fold (deliver es (deliverStep e b)).
  assert (He : isChoiceResponse e = false \/ pendingChoice b = 0).
  { destruct Hcase as [Hes|Hnone]; [left|right; exact Hnone].
    simpl in Hes. apply andb_true_iff in Hes as [He _].
    apply negb_true_iff, He. }
  destruct (deliverStep_stuck n e b He H) as [H' Hpending].
  apply IH; [|exact H'].
  destruct Hcase as [Hes|Hnone]; [left|right; congruence].
  simpl in Hes. apply andb_true_iff in Hes as [_ Hes]. exact Hes.
Qed.

(** C10: the restart handler resets the session record to absent, hides the
    game-over view, shows the welcome view, empties the transcript and
    enables the start button, and leaves the disabled flags of the input
    field and of the send button as they are. So when a game-over response
    arrives while both are disabled (as they are during a submission), and
    the player restarts and starts a new session with success, the game
    view is shown with the new session and both controls are still
    disabled. The player then cannot submit a choice: the page delivers no
    typing, no key and no click to the disabled controls, so over all the
    events it does deliver no choice request is sent and the controls stay
    disabled, until the response to a choice arrives; when the game-over
    response was the only one pending, none can arrive and this holds for
    every sequence of events. *)
Theorem C10_restart_leaves_input_disabled :
  (forall w : World,
     gameState (restartBtn_click w) = mkSession None None None
     /\ gameOverScreen (page (restartBtn_click w)) = DisplayNone
     /\ welcomeScreen (page (restartBtn_click w)) = DisplayBlock
     /\ chatMessages (page (restartBtn_click w)) = []
     /\ startBtn_disabled (page (restartBtn_click w)) = false
     /\ chatInput_disabled (page (restartBtn_click w))
        = chatInput_disabled (page w)
     /\ sendBtn_disabled (page (restartBtn_click w))
        = sendBtn_disabled (page w))
  /\ (forall (b : Browser) (over : ChoiceData) (started : StartData)
         (es : list Event),
       pendingChoice b <> 0 ->
       pendingStart b = 0 ->
       inputDisabled (world b) ->
       failureText (Body over) = None ->
       game_over over = Some true ->
       truthyStr (start_error started) = false ->
       forallb (fun e => negb (isChoiceResponse e)) es = true ->
       let b' :=
         run [ChoiceResponse (Body over); ClickRestart; ClickStart;
              StartResponse (Body started)] b in
       gameState (world b')
       = mkSession (session_id started) (encounter started)
           (start_state started)
       /\ gameScreen (page (world b')) = DisplayBlock
       /\ inputDisabled (world b')
       /\ inputDisabled (world (run es b'))
       /\ deliver [ChoiceResponse (Body over); ClickRestart; ClickStart;
                   StartResponse (Body started)] b
          = b'
       /\ inputDisabled (world (deliver es b'))
       /\ countChoiceRequests (sent (deliver es b'))
          = countChoiceRequests (sent b')
       /\ (pendingChoice b = 1 ->
           forall es' : list Event,
             inputDisabled (world (deliver es' b'))
             /\ countChoiceRequests (sent (deliver es' b'))
                = countChoiceRequests (sent b'))).
Proof.
  split; [intros w; repeat split|].
  intros b over started es Hpending Hnostart Hdis Hok Hover Hstart Hes b'.
  assert (Hb' : world b'
                = startBtn_resume (Body started)
                    (fst (startBtn_click
                            (restartBtn_click
                               (sendChoice_resume (Body over) (world b)))))
                /\ pendingChoice b' = pendingChoice b - 1
                /\ deliver [ChoiceResponse (Body over); ClickRestart;
                            ClickStart; StartResponse (Body started)] b
                   = b').
  { subst b'. unfold run, deliver. cbn [fold_left].
    destruct b as [w sn ps pc]; simpl in *. subst ps.
    destruct pc as [|pc]; [contradiction|].
    repeat split; simpl; lia. }
  destruct Hb' as (Hb' & Hleft & Hdeliver).
  assert (Hin : inputDisabled (world b')).
  { rewrite Hb'. unfold inputDisabled.
    destruct (startBtn_resume_input (Body started)
                (fst (startBtn_click
                        (restartBtn_click
                           (sendChoice_resume (Body over) (world b))))))
      as [-> ->].
    apply (game_over_keeps_input over (world b) Hok Hover Hdis). }
  destruct (startBtn_resume_success started
              (fst (startBtn_click
                      (restartBtn_click
                         (sendChoice_resume (Body over) (world b))))) Hstart)
    as (Hsession & _ & Hgame).
  assert (Hstuck : stuck (countChoiceRequests (sent b')) b')
    by (split; [exact Hin | reflexivity]).
  rewrite Hb'. split; [exact Hsession|]. split; [exact Hgame|].
  rewrite <- Hb'. split; [exact Hin|].
  split; [apply run_keeps_input_disabled; assumption|].
  split; [exact Hdeliver|].
  split; [apply (deliver_stuck _ es b' (or_introl Hes) Hstuck)|].
  split; [apply (deliver_stuck _ es b' (or_introl Hes) Hstuck)|].
  intros Hone es'.
  assert (Hnone : pendingChoice b' = 0) by lia.
  apply (deliver_stuck _ es' b' (or_intror Hnone) Hstuck).
Qed.

Lemma C10_restart_witness :
  (pendingChoice Run.choiceInFlight = 1
   /\ inputDisabled (world Run.choiceInFlight))
  /\ inputDisabled
       (world (run [ChoiceResponse (Body Run.gameOverResponse); ClickRestart;
                    ClickStart; StartResponse (Body Run.started)]
                 Run.choiceInFlight))
  /\ countChoiceRequests
       (sent (deliver [TypeInput (lit "x"); ClickSend; KeyPress (lit "Enter")]
                (run [ChoiceResponse (Body Run.gameOverResponse);
                      ClickRestart; ClickStart;
                      StartResponse (Body Run.started)]
                   Run.choiceInFlight)))
     = 1.
Proof.
  split; [split; [reflexivity | split; reflexivity]|].
  destruct (proj2 C10_restart_leaves_input_disabled Run.choiceInFlight
              Run.gameOverResponse Run.started [])
    as (_ & _ & Hin & _ & _ & _ & _ & Hnever);
    try reflexivity; [discriminate | split; reflexivity |].
  split; [exact Hin|].
  destruct (Hnever eq_refl
              [TypeInput (lit "x"); ClickSend; KeyPress (lit "Enter")])
    as [_ Hsent].
  rewrite Hsent. vm_compute. reflexivity.
Defined.
